(** * csv-to-kml: a shallow embedding of [csv_to_kml.py] and its properties

    The development follows the source file top-down: Python string
    helpers, the rows yielded by [csv.DictReader], [find_address_column],
    [geocode_address], [batch_geocode], [generate_kml] and the body of
    [convert_csv_to_kml].  Console output, [time.sleep] and the calls of
    the geocoding provider are recorded, in program order, in a list of
    events that every effectful function threads through.

    Text is modelled by [string]; one [ascii] stands for one code point
    below 256.  Floating-point numbers are kept abstract: the type, the
    [float(...)] parser and the text of a formatted float are the fields
    of the class [Float], over which the code is generic.  The text of
    the error that the XML parser reports is the field of the class
    [Expat]. *)

From Stdlib Require Import QArith Ascii String.
From stdpp Require Import gmap strings list pretty.

Close Scope Q_scope.

(** ** Python values used by the program *)

Module Py.

(** *** [str] methods *)

(** [str.isspace] on one code point below 256: TAB..CR, FS..US, SPACE,
    NEL and NBSP. *)
Definition is_space (c : ascii) : bool :=
  let n := Ascii.N_of_ascii c in
  ((9 <=? n) && (n <=? 13) || (28 <=? n) && (n <=? 32)
   || (n =? 133) || (n =? 160))%N.

Fixpoint lstrip (s : string) : string :=
  match s with
  | EmptyString => EmptyString
  | String c s' => if is_space c then lstrip s' else s
  end.

Fixpoint rstrip (s : string) : string :=
  match s with
  | EmptyString => EmptyString
  | String c s' =>
      match rstrip s' with
      | EmptyString => if is_space c then EmptyString else String c EmptyString
      | r => String c r
      end
  end.

(** [s.strip()] *)
Definition strip (s : string) : string := rstrip (lstrip s).

(** [str.lower] on one code point below 256: ASCII and Latin-1 capitals. *)
Definition lower_char (c : ascii) : ascii :=
  let n := Ascii.N_of_ascii c in
  if ((65 <=? n) && (n <=? 90)
      || (192 <=? n) && (n <=? 222) && negb (n =? 215))%N
  then Ascii.ascii_of_N (n + 32) else c.

Fixpoint lower (s : string) : string :=
  match s with
  | EmptyString => EmptyString
  | String c s' => String (lower_char c) (lower s')
  end.

(** [needle in hay] for two strings. *)
Fixpoint contains (needle hay : string) : bool :=
  String.prefix needle hay
  || match hay with
     | EmptyString => false
     | String _ hay' => contains needle hay'
     end.

(** [sep.join(parts)] *)
Fixpoint join (sep : string) (parts : list string) : string :=
  match parts with
  | [] => ""
  | [p] => p
  | p :: rest => p +:+ sep +:+ join sep rest
  end.

(** [s[:n]] *)
Definition slice_to (n : nat) (s : string) : string := String.substring 0 n s.

(** [str(i)] for a non-negative [int]. *)
Definition str_of_nat (n : nat) : string := pretty n.

(** *** Cells

    A value stored in a row by [csv.DictReader]: a string, or [None]
    (the reader's [restval]) where the record was shorter than the
    header. *)
Definition cell : Type := option string.

(** Truth value of a string and of a cell, as tested by [if v],
    [filter(None, ...)] and [not v]. *)
Definition truthy_str (s : string) : bool :=
  match s with EmptyString => false | String _ _ => true end.

Definition truthy (v : cell) : bool :=
  match v with Some s => truthy_str s | None => false end.

(** [str(v)] and the text of [v] inside an f-string. *)
Definition str (v : cell) : string :=
  match v with Some s => s | None => "None" end.

(** *** Dictionaries in insertion order

    A [dict] whose order matters is a list of key/value pairs with
    pairwise distinct keys. *)
Definition dict (V : Type) : Type := list (string * V).

Fixpoint dict_lookup {V} (k : string) (d : dict V) : option V :=
  match d with
  | [] => None
  | (k', v) :: d' => if String.eqb k k' then Some v else dict_lookup k d'
  end.

(** [d.get(k, default)] *)
Definition get {V} (d : dict V) (k : string) (default : V) : V :=
  match dict_lookup k d with Some v => v | None => default end.

(** [x in xs] for a list of strings. *)
Definition in_list (x : string) (xs : list string) : bool :=
  existsb (String.eqb x) xs.

(** [list(set(xs))]: the distinct elements of [xs], in an order the
    language does not fix.  An iteration order is any function that
    permutes its argument. *)
Record set_order : Type := SetOrder {
  iter :> list string -> list string;
  iter_perm : forall l, iter l ≡ₚ l
}.

Definition list_of_set (o : set_order) (xs : list string) : list string :=
  o (remove_dups xs).

(** Two admissible orders: the distinct elements as [remove_dups] lists
    them, and the same list backwards. *)
Definition listed : set_order := SetOrder (fun l => l) (fun l => reflexivity l).

Definition backwards : set_order := SetOrder reverse (@reverse_Permutation string).

(** *** Exceptions that leave the program

    [ValueError] and [ImportError] are raised by the program itself,
    [TypeError] by [ET.tostring] and [ExpatError] by
    [minidom.parseString]; [msg] is [str] of the exception. *)
Inductive exn : Type :=
| ValueError (msg : string)
| ImportError (msg : string)
| TypeError (msg : string)
| ExpatError (msg : string).

Inductive result (A : Type) : Type :=
| Ok (a : A)
| Raise (e : exn).
Arguments Ok {A} a.
Arguments Raise {A} e.

End Py.

Import Py.

(** The items of a row under the names of the header: column name to
    cell, in header order. *)
Definition row : Type := dict cell.

Identity Coercion items_of_row : row >-> dict.

(** A row as [csv.DictReader] yields it: the items under the names of
    the header and, for a record with more fields than the header, one
    more item, the last of the dict, that holds the list of the surplus
    fields under the key [None] (the reader's [restkey]).  [surplus] is
    that list; it is empty when the dict has no item under [None].
    Where a function takes the items under column names only, a
    [csv_row] stands for its [fields]. *)
Record csv_row : Type := CsvRow {
  fields :> row;
  surplus : list string
}.

(** ** Observable events *)

Inductive event : Type :=
| Sleep (seconds : Q)        (* [time.sleep(seconds)] *)
| Lookup (query : string)    (* [geocoder.geocode(query, timeout=10)] *)
| Print (line : string).     (* [print(line)] *)

Definition is_lookup_of (a : string) (e : event) : bool :=
  match e with Lookup q => String.eqb q a | _ => false end.

(** Number of provider calls for the query [a] in a run. *)
Definition lookups_of (a : string) (out : list event) : nat :=
  length (List.filter (is_lookup_of a) out).

(** ** [find_address_column] *)

Definition find_address_column (headers : list string) (column_name : string)
  : result string :=
  if in_list column_name headers then Ok column_name
  else
    let address_columns :=
      List.filter (fun col => contains "address" (lower col)) headers in
    match address_columns with
    | first :: _ => Ok first
    | [] =>
        Raise (ValueError ("Column '" +:+ column_name
                           +:+ "' not found in CSV. Available columns: "
                           +:+ join ", " headers))
    end.

(** ** Floating-point numbers

    The program parses, stores and prints floats and never computes with
    them, so the interface lists exactly what it uses. *)
Class Float : Type := {
  float : Type;
  (** [float(s)] for a string [s]; [None] stands for [ValueError]. *)
  float_of_str : string -> option float;
  (** [float(0)] *)
  float_of_zero : float;
  (** The text of [f"{x}"] for a float [x]. *)
  float_str : float -> string;
  (** The text of [f"{(idx / total) * 100:.1f}"]. *)
  percent_1f : nat -> nat -> string
}.

(** ** The XML parser

    [minidom.parseString] hands the document to expat.  The text of the
    error expat reports for a document it rejects, [str] of the
    [ExpatError], is the one thing the program takes from it. *)
Class Expat : Type := {
  (** [str(e)] for the [ExpatError] raised on the document. *)
  expat_error : string -> string
}.

(** [(longitude, latitude)] *)
Definition coordinate `{Float} : Type := (float * float)%type.

(** ** The geocoding provider *)

(** The object returned by a successful lookup. *)
Record location `{Float} : Type := Location {
  latitude : float;
  longitude : float
}.
Arguments Location {_} _ _.

(** What one call [geocoder.geocode(address, timeout=10)] can do. *)
Inductive lookup_outcome `{Float} : Type :=
| Found (loc : location)              (* a location *)
| NotFound                            (* [None] *)
| GeocoderTimedOut (e : string)       (* raises, [e] is [str] of the exception *)
| GeocoderServiceError (e : string)
| OtherException (e : string).        (* any other [Exception] *)

(** The provider answers a query knowing everything that happened before
    the call, so two calls with the same query may differ. *)
Definition geocoder `{Float} : Type := list event -> string -> lookup_outcome.

(** The per-run cache, [Dict[str, Optional[Tuple[float, float]]]]. *)
Abbreviation geocode_cache := (gmap string (option coordinate)).

(** ** [geocode_address]

    Takes the cache and the events so far; returns the result, the cache
    after the call and the events after the call.  [time.sleep] raises
    [ValueError] on a negative argument, inside the [try]. *)
Definition geocode_address `{Float} (g : geocoder) (address : string)
    (cache : geocode_cache) (delay : Q) (out : list event)
  : option coordinate * geocode_cache * list event :=
  if negb (truthy_str address) || String.eqb (strip address) "" then
    (None, cache, out)
  else
    match cache !! address with
    | Some cached => (cached, cache, out)
    | None =>
        if Qle_bool 0 delay then
          let out := out ++ [Sleep delay] in
          let answer := g out address in
          let out := out ++ [Lookup address] in
          match answer with
          | Found loc =>
              let coordinates := (longitude loc, latitude loc) in
              (Some coordinates, <[address := Some coordinates]> cache, out)
          | NotFound =>
              (None, <[address := None]> cache, out)
          | GeocoderTimedOut e | GeocoderServiceError e =>
              (None, <[address := None]> cache,
               out ++ [Print ("Geocoding error for '" +:+ address +:+ "': " +:+ e)])
          | OtherException e =>
              (None, <[address := None]> cache,
               out ++ [Print ("Unexpected error geocoding '" +:+ address
                              +:+ "': " +:+ e)])
          end
        else
          (None, <[address := None]> cache,
           out ++ [Print ("Unexpected error geocoding '" +:+ address
                          +:+ "': sleep length must be non-negative")])
    end.

(** The default of the [delay] parameter, [1.0]. *)
Definition default_delay : Q := 1%Q.

(** ** [batch_geocode] *)

(** The [for idx, address in enumerate(addresses, 1)] loop; [idx] is the
    index of the head of [addresses]. *)
Fixpoint batch_geocode_loop `{Float} (g : geocoder) (total idx : nat)
    (addresses : list string)
    (cache results : geocode_cache) (out : list event)
  : geocode_cache * geocode_cache * list event :=
  match addresses with
  | [] => (results, cache, out)
  | address :: rest =>
      let out := out ++ [Print ("Geocoding " +:+ str_of_nat idx +:+ "/"
                                +:+ str_of_nat total +:+ " ("
                                +:+ percent_1f idx total +:+ "%): "
                                +:+ slice_to 50 address +:+ "...")] in
      let '(coordinates, cache, out) :=
        geocode_address g address cache default_delay out in
      batch_geocode_loop g total (S idx) rest cache
        (<[address := coordinates]> results) out
  end.

(** [GEOPY_AVAILABLE] is the module-level flag set by the import of geopy;
    [Nominatim] is the provider the function constructs. *)
Definition batch_geocode `{Float} (GEOPY_AVAILABLE : bool) (Nominatim : geocoder)
    (addresses : list string) (out : list event)
  : result (geocode_cache * list event) :=
  if negb GEOPY_AVAILABLE then
    Raise (ImportError "geopy is required for geocoding. Install with: pip install geopy")
  else
    let '(results, _, out) :=
      batch_geocode_loop Nominatim (length addresses) 1 addresses ∅ ∅ out in
    Ok (results, out).

(** ** Element trees

    [xml.etree.ElementTree] as the program uses it: an element has a tag,
    attributes, an optional text and child elements ([tail] is never
    set).  There is one kind of text: the library has no node for a
    literal (CDATA) block. *)

Module ET.

#[warnings="-register-all"] Inductive element : Type :=
| Element (tag : string) (attrib : dict string) (text : option string)
          (children : list element).

Definition tag (e : element) : string := let 'Element t _ _ _ := e in t.
Definition attrib (e : element) : dict string := let 'Element _ a _ _ := e in a.
Definition text (e : element) : option string := let 'Element _ _ t _ := e in t.
Definition children (e : element) : list element := let 'Element _ _ _ c := e in c.

(** [e.findall(t)]: the children of [e] with tag [t]. *)
Definition findall (t : string) (e : element) : list element :=
  List.filter (fun c => String.eqb (tag c) t) (children e).

(** The library's serializer ([ElementTree._serialize_xml] with
    [_escape_cdata] and [_escape_attrib], CPython 3.9 and later),
    reached through [ET.tostring(kml, encoding='unicode')]. *)
Definition escape_cdata_char (c : ascii) : string :=
  if Ascii.eqb c "&" then "&amp;"
  else if Ascii.eqb c "<" then "&lt;"
  else if Ascii.eqb c ">" then "&gt;"
  else String c "".

Fixpoint escape_cdata (s : string) : string :=
  match s with
  | EmptyString => ""
  | String c s' => escape_cdata_char c +:+ escape_cdata s'
  end.

Definition escape_attrib_char (c : ascii) : string :=
  if Ascii.eqb c "034" then "&quot;"
  else if Ascii.eqb c "013" then "&#13;"
  else if Ascii.eqb c "010" then "&#10;"
  else if Ascii.eqb c "009" then "&#09;"
  else escape_cdata_char c.

Fixpoint escape_attrib (s : string) : string :=
  match s with
  | EmptyString => ""
  | String c s' => escape_attrib_char c +:+ escape_attrib s'
  end.

Fixpoint write_attrib (a : dict string) : string :=
  match a with
  | [] => ""
  | (k, v) :: a' =>
      " " +:+ k +:+ "=" +:+ String "034" (escape_attrib v)
          +:+ String "034" (write_attrib a')
  end.

Fixpoint tostring (e : element) : string :=
  let 'Element t a txt cs := e in
  let body := default "" txt in
  "<" +:+ t +:+ write_attrib a
  +:+ (if truthy txt || negb (Nat.eqb (length cs) 0) then
         ">" +:+ escape_cdata body
             +:+ (fix all (l : list element) : string :=
                    match l with
                    | [] => ""
                    | c :: l' => tostring c +:+ all l'
                    end) cs
             +:+ "</" +:+ t +:+ ">"
       else " />").

(** A code point below 256 that XML 1.0 allows in a document: TAB, LF,
    CR and everything from SPACE on. *)
Definition xml_char (c : ascii) : bool :=
  let n := Ascii.N_of_ascii c in
  ((n =? 9) || (n =? 10) || (n =? 13) || (32 <=? n))%N.

Definition xml_text (s : string) : bool :=
  forallb xml_char (String.list_ascii_of_string s).

(** [minidom.parseString(tostring(e))] returns: the serializer escapes
    the markup characters and copies every other character of a text or
    of an attribute value, so the parser rejects the document exactly
    when one of them holds a character that XML does not allow; the tags
    and the attribute names are those the program writes. *)
Fixpoint parses (e : element) : bool :=
  let 'Element _ a txt cs := e in
  xml_text (default "" txt)
  && forallb (fun '(_, v) => xml_text v) a
  && (fix all (l : list element) : bool :=
        match l with
        | [] => true
        | c :: l' => parses c && all l'
        end) cs.

End ET.

(** ** [generate_kml] *)

(** One entry of the [placemarks] list, with the items that its
    [extended_data] holds under column names. *)
Record placemark `{Float} : Type := Placemark {
  name : cell;
  coordinates : coordinate;
  description : cell;
  extended_data : dict cell
}.
Arguments Placemark {_} _ _ _ _.

(** ["\n"] *)
Definition newline : string := String "010" "".

(** Lines 131-139: the text of the description element. *)
Definition description_text `{Float} (p : placemark) : string :=
  let desc_text := str (description p) in
  if negb (Nat.eqb (length (extended_data p)) 0) then
    let desc_parts :=
      [desc_text; "<![CDATA[<table border='1'>"]
      ++ map (fun '(key, value) =>
                "<tr><td><b>" +:+ key +:+ "</b></td><td>" +:+ str value
                +:+ "</td></tr>") (extended_data p)
      ++ ["</table>]]>"] in
    join newline desc_parts
  else desc_text.

(** Lines 149-153: the [ExtendedData] element. *)
Definition extended_data_element (d : dict cell) : ET.element :=
  ET.Element "ExtendedData" [] None
    (map (fun '(key, value) =>
            ET.Element "Data" [("name", key)] None
              [ET.Element "value" [] (Some (str value)) []]) d).

(** Lines 122-159: the [Placemark] element of one entry. *)
Definition placemark_element `{Float} (p : placemark) : ET.element :=
  ET.Element "Placemark" [] None
    ([ET.Element "name" [] (Some (str (name p))) []]
     ++ (if truthy (description p)
         then [ET.Element "description" [] (Some (description_text p)) []]
         else [])
     ++ [ET.Element "styleUrl" [] (Some "#defaultStyle") []]
     ++ (if negb (Nat.eqb (length (extended_data p)) 0)
         then [extended_data_element (extended_data p)]
         else [])
     ++ [ET.Element "Point" [] None
           [ET.Element "coordinates" []
              (Some (let '(lon, lat) := coordinates p in
                     float_str lon +:+ "," +:+ float_str lat +:+ ",0")) []]]).

(** Lines 102-159: the tree the function builds. *)
Definition generate_kml_tree `{Float} (placemarks : list placemark) (document_name : string)
  : ET.element :=
  ET.Element "kml" [("xmlns", "http://www.opengis.net/kml/2.2")] None
    [ET.Element "Document" [] None
       ([ET.Element "name" [] (Some document_name) [];
         ET.Element "Style" [("id", "defaultStyle")] None
           [ET.Element "IconStyle" [] None
              [ET.Element "color" [] (Some "ff0000ff") [];
               ET.Element "scale" [] (Some "1.0") [];
               ET.Element "Icon" [] None
                 [ET.Element "href" []
                    (Some "http://maps.google.com/mapfiles/kml/pushpin/red-pushpin.png")
                    []]]]]
        ++ map placemark_element placemarks)].

(** Line 162: [rough_string], the serialized tree.  The function returns
    this document re-indented by [minidom]; the re-indentation parses the
    text back, so it sees what [rough_string] holds. *)
Definition rough_string `{Float} (placemarks : list placemark)
    (document_name : string) : string :=
  ET.tostring (generate_kml_tree placemarks document_name).

(** An entry of the [placemarks] list as the loops of
    [convert_csv_to_kml] build it: the placemark, and the list that its
    [extended_data] holds under the key [None], copied there from a row
    with surplus fields; the list is empty when there is no such item. *)
Abbreviation entry := (placemark * list string)%type.

(** Lines 100-164, the whole function.  The item of [extended_data] under
    [None] becomes a [Data] element whose attribute [name] is [None], and
    [ET.tostring] (line 162) raises [TypeError] at an attribute that is
    no string, whatever else the tree holds.  Without such an item the
    tree is that of [generate_kml_tree], and [minidom.parseString]
    (line 163) raises [ExpatError] when it does not parse.  The result
    stands for the returned document. *)
Definition generate_kml `{Float} `{Expat} (placemarks : list entry)
    (document_name : string) : result ET.element :=
  if existsb (fun '(_, under_none) => negb (Nat.eqb (length under_none) 0))
       placemarks then
    Raise (TypeError "cannot serialize None (type NoneType)")
  else
    let kml := generate_kml_tree (map fst placemarks) document_name in
    if ET.parses kml then Ok kml
    else Raise (ExpatError (expat_error (ET.tostring kml))).

(** ** [convert_csv_to_kml] *)

(** [float(row.get(column, 0))]: [float(None)] raises [TypeError], a
    string that is no number raises [ValueError]; both are [None] here. *)
Definition float_of_column `{Float} (r : row) (column : string) : option float :=
  match dict_lookup column r with
  | Some (Some s) => float_of_str s
  | Some None => None
  | None => Some float_of_zero
  end.

(** [{k: v for k, v in row.items() if k not in excluded_cols and v}],
    the items under column names; the item of the row under [None]
    passes the test, [None] being no column and its list not empty. *)
Definition extended_data_of (excluded_cols : gset string) (r : row) : dict cell :=
  List.filter (fun '(k, v) => bool_decide (k ∉ excluded_cols) && truthy v) r.

(** Lines 205-233: the body of the loop of the coordinate path for the
    row [r] of index [idx]; [None] is the [continue] of the handler. *)
Definition coordinate_row `{Float} (headers : list string)
    (address_column : string) (name_column : cell)
    (lat_column lon_column : string) (idx : nat) (r : row)
  : option placemark :=
  match float_of_column r lat_column with
  | None => None
  | Some lat =>
      match float_of_column r lon_column with
      | None => None
      | Some lon =>
          let coordinates := (lon, lat) in
          let point := Some ("Point " +:+ str_of_nat idx) in
          let name :=
            if truthy name_column && in_list (str name_column) headers
            then get r (str name_column) point
            else get r address_column point in
          let excluded_cols : gset string := {[lat_column; lon_column]} in
          let excluded_cols :=
            if truthy name_column
            then excluded_cols ∪ {[str name_column]} else excluded_cols in
          let excluded_cols :=
            if in_list address_column headers
            then excluded_cols ∪ {[address_column]} else excluded_cols in
          let extended_data := extended_data_of excluded_cols r in
          Some (Placemark name coordinates
                  (get r address_column (Some "")) extended_data)
      end
  end.

(** Lines 204-233: the loop of the coordinate path; [idx] is the index
    of the head of [data], [placemarks] the list built so far. *)
Fixpoint coordinate_rows `{Float} (headers : list string)
    (address_column : string) (name_column : cell)
    (lat_column lon_column : string)
    (idx : nat) (data : list csv_row)
    (placemarks : list entry) (out : list event)
  : list entry * list event :=
  match data with
  | [] => (placemarks, out)
  | r :: rest =>
      let continue := coordinate_rows headers address_column name_column
                        lat_column lon_column (S idx) rest in
      match coordinate_row headers address_column name_column
              lat_column lon_column idx r with
      | None =>
          continue placemarks
            (out ++ [Print ("Skipping row " +:+ str_of_nat idx
                            +:+ ": Invalid coordinates")])
      | Some p => continue (placemarks ++ [(p, surplus r)]) out
      end
  end.

(** [filter(None, addresses)]: the truthy cells, which are strings. *)
Definition filter_none (addresses : list cell) : list string :=
  omap (fun v => if truthy v then v else None) addresses.

(** [geocoded_addresses.get(address)]: [None] for a key that is absent,
    and a cell that is [None] is never a key. *)
Definition geocoded_get `{Float} (geocoded_addresses : geocode_cache)
    (address : cell) : option coordinate :=
  match address with
  | Some a => default None (geocoded_addresses !! a)
  | None => None
  end.

(** Lines 252-279: the body of the second loop of the address path for
    the row [r]; [None] is the [continue] after the warning. *)
Definition geocoded_row `{Float} (headers : list string)
    (address_col : string) (name_column : cell)
    (geocoded_addresses : geocode_cache) (r : row)
  : option placemark :=
  let address := get r address_col (Some "") in
  match geocoded_get geocoded_addresses address with
  | None => None
  | Some coordinates =>
      let name :=
        if truthy name_column && in_list (str name_column) headers
        then get r (str name_column) address
        else address in
      let excluded_cols : gset string := {[address_col]} in
      let excluded_cols :=
        if truthy name_column
        then excluded_cols ∪ {[str name_column]} else excluded_cols in
      let extended_data := extended_data_of excluded_cols r in
      Some (Placemark name coordinates address extended_data)
  end.

(** Lines 251-279: the loop that turns rows into placemarks. *)
Fixpoint geocoded_rows `{Float} (headers : list string)
    (address_col : string) (name_column : cell)
    (geocoded_addresses : geocode_cache)
    (data : list csv_row) (success_count : nat)
    (placemarks : list entry) (out : list event)
  : list entry * nat * list event :=
  match data with
  | [] => (placemarks, success_count, out)
  | r :: rest =>
      let continue := geocoded_rows headers address_col name_column
                        geocoded_addresses rest in
      match geocoded_row headers address_col name_column geocoded_addresses r with
      | None =>
          continue success_count placemarks
            (out ++ [Print ("Warning: Could not geocode address: "
                            +:+ str (get r address_col (Some "")))])
      | Some p => continue (S success_count) (placemarks ++ [(p, surplus r)]) out
      end
  end.

(** What a run that reaches the end has produced.  No entry of its
    [placemarks] has an item under [None], [generate_kml] having
    returned. *)
Record conversion `{Float} : Type := Conversion {
  markers : list placemark;          (* [placemarks] *)
  document : ET.element;             (* the tree behind [kml_content] *)
  console : list event               (* everything printed, slept and looked up *)
}.
Arguments Conversion {_} _ _ _.

(** Lines 188-285, from the parsed file to the generated document.  The
    environment of a run is the flag [GEOPY_AVAILABLE], the provider
    [Nominatim] and the iteration order [o] of the set of addresses.  An
    exception of [generate_kml] (line 285) leaves the function like the
    ones it raises itself. *)
Definition convert_csv_to_kml `{Float} `{Expat}
    (GEOPY_AVAILABLE : bool) (Nominatim : geocoder) (o : set_order)
    (data : list csv_row) (headers : list string) (document_name : string)
    (address_column : string) (name_column : cell)
    (skip_geocoding : bool) (lat_column lon_column : cell)
  : result conversion :=
  if Nat.eqb (length data) 0 then Raise (ValueError "No data found in CSV file")
  else
    let out := [Print ("Found " +:+ str_of_nat (length data) +:+ " rows in CSV")] in
    let finish (placemarks : list entry) (out : list event) :=
      let out := out ++ [Print ("Generating KML with "
                                +:+ str_of_nat (length placemarks)
                                +:+ " placemarks...")] in
      match generate_kml placemarks document_name with
      | Raise e => Raise e
      | Ok kml => Ok (Conversion (map fst placemarks) kml out)
      end in
    if skip_geocoding && truthy lat_column && truthy lon_column then
      let out := out ++ [Print "Using latitude and longitude columns from CSV"] in
      if negb (in_list (str lat_column) headers) then
        Raise (ValueError ("Latitude column '" +:+ str lat_column
                           +:+ "' not found in CSV"))
      else if negb (in_list (str lon_column) headers) then
        Raise (ValueError ("Longitude column '" +:+ str lon_column
                           +:+ "' not found in CSV"))
      else
        let '(placemarks, out) :=
          coordinate_rows headers address_column name_column
            (str lat_column) (str lon_column) 1 data [] out in
        finish placemarks out
    else
      let out := out ++ [Print "Geocoding addresses..."] in
      match find_address_column headers address_column with
      | Raise e => Raise e
      | Ok address_col =>
          let addresses :=
            map (fun r : csv_row => get r address_col (Some "")) data in
          let unique_addresses := list_of_set o (filter_none addresses) in
          let out := out ++ [Print ("Geocoding "
                                    +:+ str_of_nat (length unique_addresses)
                                    +:+ " unique addresses...")] in
          match batch_geocode GEOPY_AVAILABLE Nominatim unique_addresses out with
          | Raise e => Raise e
          | Ok (geocoded_addresses, out) =>
              let '(placemarks, success_count, out) :=
                geocoded_rows headers address_col name_column
                  geocoded_addresses data 0 [] out in
              let out := out ++ [Print ("Successfully geocoded "
                                        +:+ str_of_nat success_count +:+ "/"
                                        +:+ str_of_nat (length data)
                                        +:+ " addresses")] in
              finish placemarks out
          end
      end.

(** ** The rest of [convert_csv_to_kml], and [main] *)

(** What [os.path.exists] and [parse_csv] give for the input path. *)
Inductive csv_source : Type :=
| NoSuchFile                       (* the path does not exist *)
| Unreadable (e : string)          (* [parse_csv] raises; [e] is [str] of the exception *)
| Parsed (data : list csv_row) (headers : list string).

(** [str(e)] *)
Definition message (e : exn) : string :=
  match e with
  | ValueError msg | ImportError msg | TypeError msg | ExpatError msg => msg
  end.

(** How a call of the whole function ends: it returns [output_file]
    after writing the document and printing [stdout], or an exception
    whose text is [e] leaves it. *)
Inductive run_result `{Float} : Type :=
| Completed (output_file : string) (c : conversion) (stdout : list event)
| Aborted (e : string).

(** Lines 175-292.  [stem] is [Path(csv_file).stem]; writing the output
    file is taken to succeed. *)
Definition convert_csv_to_kml_file `{Float} `{Expat}
    (GEOPY_AVAILABLE : bool) (Nominatim : geocoder) (o : set_order)
    (source : csv_source) (stem : string)
    (csv_file : string) (output_file : cell)
    (address_column : string) (name_column : cell)
    (skip_geocoding : bool) (lat_column lon_column : cell)
  : run_result :=
  match source with
  | NoSuchFile => Aborted ("CSV file not found: " +:+ csv_file)
  | Unreadable e => Aborted e
  | Parsed data headers =>
      let output_file :=
        match output_file with
        | None => stem +:+ ".kml"
        | Some given => given
        end in
      match convert_csv_to_kml GEOPY_AVAILABLE Nominatim o data headers stem
              address_column name_column skip_geocoding lat_column lon_column with
      | Raise e => Aborted (message e)
      | Ok c =>
          Completed output_file c
            ([Print ("Parsing CSV file: " +:+ csv_file)]
             ++ console c
             ++ [Print ("Saving KML file: " +:+ output_file);
                 Print ("Conversion complete! KML file saved as: "
                        +:+ output_file)])
      end
  end.

Module Cli.

(** The namespace returned by [parser.parse_args()]. *)
Record arguments : Type := Arguments {
  csv_file : string;
  output : cell;
  address_column : string;
  name_column : cell;
  skip_geocoding : bool;
  lat_column : cell;
  lon_column : cell
}.

(** How the process ends: its exit status, the message written to the
    error stream (the text handed to [parser.error], or the line printed
    by the handler), what a run that ended normally printed, and the
    file written. *)
Record exit `{Float} : Type := Exit {
  status : nat;
  stderr : option string;
  stdout : list event;
  written : option (string * ET.element)
}.
Arguments Exit {_} _ _ _ _.

(** [parser.error(msg)]: exit status 2, nothing else done. *)
Definition parser_error `{Float} (msg : string) : exit :=
  Exit 2 (Some msg) [] None.

(** Lines 317-338, after the arguments are parsed. *)
Definition main `{Float} `{Expat} (GEOPY_AVAILABLE : bool) (Nominatim : geocoder)
    (o : set_order) (source : csv_source) (stem : string) (args : arguments)
  : exit :=
  if skip_geocoding args
     && (negb (truthy (lat_column args)) || negb (truthy (lon_column args)))
  then parser_error "--lat-column and --lon-column are required when --skip-geocoding is used"
  else if negb (skip_geocoding args) && negb GEOPY_AVAILABLE
  then parser_error "geopy is required for geocoding. Install with: pip install geopy"
  else
    match convert_csv_to_kml_file GEOPY_AVAILABLE Nominatim o source stem
            (csv_file args) (output args) (address_column args)
            (name_column args) (skip_geocoding args)
            (lat_column args) (lon_column args) with
    | Aborted e => Exit 1 (Some ("Error: " +:+ e)) [] None
    | Completed output_file c out =>
        Exit 0 None out (Some (output_file, document c))
    end.

End Cli.

(** ** Data for running the code

    An instance of the float interface that covers whole numbers: it
    reads [-]digits and [-]digits.0...0 and prints as Python prints such
    a float of at most sixteen digits that is no negative zero; the
    percentage is taken to the nearest tenth. *)

Module Sample.

Fixpoint digits (s : string) (acc : Z) : option Z :=
  match s with
  | EmptyString => Some acc
  | String c s' =>
      let n := Ascii.N_of_ascii c in
      if ((48 <=? n) && (n <=? 57))%N then digits s' (10 * acc + Z.of_N n - 48)%Z
      else if Ascii.eqb c "." then
        if forallb (Ascii.eqb "0") (String.list_ascii_of_string s')
           && negb (String.eqb s' "") then Some acc else None
      else None
  end.

Definition is_digit (c : ascii) : bool :=
  let n := Ascii.N_of_ascii c in ((48 <=? n) && (n <=? 57))%N.

Definition whole (s : string) : option Z :=
  match s with
  | String "-" (String c _ as s') =>
      if is_digit c then Z.opp <$> digits s' 0 else None
  | String c _ => if is_digit c then digits s 0 else None
  | EmptyString => None
  end.

Definition whole_numbers : Float := {|
  float := Z;
  float_of_str := whole;
  float_of_zero := 0%Z;
  float_str := fun z => pretty z +:+ ".0";
  percent_1f := fun idx total =>
    let tenths := (idx * 2000 / total + 1) / 2 in
    pretty (tenths / 10) +:+ "." +:+ pretty (tenths mod 10)
|}.

(** A parser whose message names the error only. *)
Definition expat : Expat := {|
  expat_error := fun _ => "not well-formed (invalid token)"
|}.

(** A row whose record is no longer than the header. *)
Definition plain (items : row) : csv_row := CsvRow items [].

(** A provider that knows one address and times out on another. *)
Definition provider : @geocoder whole_numbers :=
  fun _ query =>
    if String.eqb query "1 Main St, City"
    then Found (@Location whole_numbers 42%Z (-71)%Z)
    else if String.eqb query "Nowhere" then GeocoderTimedOut "Service timed out"
    else NotFound.

Definition address_rows : list csv_row :=
  [ plain [("Address", Some "1 Main St, City"); ("Name", Some "Bob"); ("Phone", Some "555")];
    plain [("Address", Some ""); ("Name", Some "Alice"); ("Phone", Some "")];
    plain [("Address", Some "Nowhere"); ("Name", Some "Carol"); ("Phone", None)];
    plain [("Address", Some "1 Main St, City"); ("Name", Some "Dave"); ("Phone", Some "556")];
    plain [("Address", Some "   "); ("Name", Some "Eve"); ("Phone", Some "557")] ].

Definition coordinate_rows_data : list csv_row :=
  [ plain [("Lat", Some "10.0"); ("Lon", Some "20.0"); ("Name", Some "X"); ("Note", Some "n1")];
    plain [("Lat", Some "bad"); ("Lon", Some "20.0"); ("Name", Some "Y"); ("Note", Some "n2")];
    plain [("Lat", Some "-95"); ("Lon", None); ("Name", Some "Z"); ("Note", None)];
    plain [("Lat", Some "-95"); ("Lon", Some "400"); ("Name", Some "W"); ("Note", Some "")] ].



(** A marker with a description and one attribute. *)
Definition described : @placemark whole_numbers :=
  @Placemark whole_numbers (Some "A") (2, 1)%Z (Some "X") [("k", Some "v")].

(** The same marker without a description. *)
Definition undescribed : @placemark whole_numbers :=
  @Placemark whole_numbers (Some "A") (2, 1)%Z (Some "") [("k", Some "v")].

(** The runs of the two samples. *)
Definition address_run : result (@conversion whole_numbers) :=
  @convert_csv_to_kml whole_numbers expat true provider listed address_rows
    ["Address"; "Name"; "Phone"] "data" "Address" (Some "Name") false None None.

Definition coordinate_run : result (@conversion whole_numbers) :=
  @convert_csv_to_kml whole_numbers expat false provider listed coordinate_rows_data
    ["Lat"; "Lon"; "Name"; "Note"] "data" "Address" (Some "Name") true
    (Some "Lat") (Some "Lon").

End Sample.

(** ** Vocabulary of the statements *)

(** The header [col] contains the word address in some mix of cases. *)
Definition names_address (col : string) : Prop :=
  exists pre post, lower col = pre +:+ "address" +:+ post.

(** The message of the error raised for a missing address column. *)
Definition column_not_found (column_name : string) (headers : list string) : exn :=
  ValueError ("Column '" +:+ column_name
              +:+ "' not found in CSV. Available columns: "
              +:+ join ", " headers).

(** Every provider call comes right after a sleep of [delay]. *)
Definition paced (delay : Q) (out : list event) : Prop :=
  forall i a, out !! i = Some (Lookup a) ->
              exists j, i = S j /\ out !! j = Some (Sleep delay).

(** The string is empty or made of white space only. *)
Definition whitespace_only (a : string) : Prop :=
  forallb is_space (String.list_ascii_of_string a) = true.

Definition is_print (e : event) : Prop := exists line, e = Print line.

(** [enumerate(l, start)] *)
Fixpoint enumerate {A} (start : nat) (l : list A) : list (nat * A) :=
  match l with
  | [] => []
  | x :: l' => (start, x) :: enumerate (S start) l'
  end.

(** The two lines printed for a row that yields no marker. *)
Definition skipping (idx : nat) : event :=
  Print ("Skipping row " +:+ str_of_nat idx +:+ ": Invalid coordinates").

Definition could_not_geocode (address : cell) : event :=
  Print ("Warning: Could not geocode address: " +:+ str address).

(** The pair [c] is what some lookup of [a] found. *)
Definition answered `{Float} (g : geocoder) (a : string) (c : coordinate) : Prop :=
  exists history loc, g history a = Found loc /\ c = (longitude loc, latitude loc).

Definition all_answered `{Float} (g : geocoder) (m : geocode_cache) : Prop :=
  forall a c, m !! a = Some (Some c) -> answered g a c.

(** The cell is missing or is no number for [float]. *)
Definition no_number `{Float} (v : cell) : Prop :=
  match v with
  | None => True
  | Some s => float_of_str s = None
  end.

(** The cell holds a string that [float] reads as [x]. *)
Definition number `{Float} (v : cell) (x : float) : Prop :=
  exists s, v = Some s /\ float_of_str s = Some x.

(** The column whose cell becomes the name of a marker: the name column
    when one is configured and in the header, else the address column. *)
Definition name_source (headers : list string) (address_col : string)
    (name_column : cell) : string :=
  if truthy name_column && in_list (str name_column) headers
  then str name_column else address_col.

(** The name/value pairs of the [ExtendedData] blocks below an element,
    read back off the tree. *)
Definition serialized_attributes (e : ET.element) : list (string * string) :=
  flat_map
    (fun block =>
       map (fun data =>
              (get (ET.attrib data) "name" "",
               match ET.children data with
               | value :: _ => default "" (ET.text value)
               | [] => ""
               end))
           (ET.children block))
    (ET.findall "ExtendedData" e).

(** The entry that a loop appends for the row [r] when its body yields
    the placemark [p]. *)
Definition entry_of `{Float} (r : csv_row) (p : placemark) : entry :=
  (p, surplus r).

(** How a run ends once its loop has built [placemarks] and [out] is
    all it printed: with the exception of [generate_kml], or with the
    document. *)
Definition finished `{Float} `{Expat} (placemarks : list entry)
    (document_name : string) (out : list event) : result conversion :=
  match generate_kml placemarks document_name with
  | Raise e => Raise e
  | Ok kml => Ok (Conversion (map fst placemarks) kml out)
  end.

(** The coordinates a lookup with the answer [answer] gives. *)
Definition coordinates_of `{Float} (answer : lookup_outcome) : option coordinate :=
  match answer with
  | Found loc => Some (longitude loc, latitude loc)
  | _ => None
  end.


(** The call returned. *)
Definition returns {A} (r : result A) : bool :=
  match r with Ok _ => true | Raise _ => false end.

(** Among the events [out] is a provider call for [a], made when
    [history] was all that had happened; the provider's answer to that
    call is [g history a]. *)
Definition call_in (out history : list event) (a : string) : Prop :=
  exists later, out = history ++ Lookup a :: later.

(** Every entry of the map is the answer to a call among the events
    [out], or the [None] of a blank address. *)
Definition traced `{Float} (g : geocoder) (out : list event) (m : geocode_cache) : Prop :=
  forall a r, m !! a = Some r ->
    (strip a = "" /\ r = None)
    \/ exists history, call_in out history a /\ r = coordinates_of (g history a).

(** Every coordinate pair of the map belongs to an address that is not
    blank and was found by a lookup of that address. *)
Definition resolved `{Float} (g : geocoder) (m : geocode_cache) : Prop :=
  forall a c, m !! a = Some (Some c) -> strip a <> "" /\ answered g a c.

(** * Properties *)

(** ** Facts about the string helpers *)

Section StringFacts.

Lemma in_list_elem_of (x : string) (xs : list string) :
  in_list x xs = true <-> x ∈ xs.
Proof.
  unfold in_list. rewrite existsb_exists. split.
  - intros (y & Hy & Heq). apply String.eqb_eq in Heq. subst y.
    by apply list_elem_of_In.
  - intros Hx. exists x. split; [by apply list_elem_of_In | apply String.eqb_refl].
Qed.

Lemma in_list_false (x : string) (xs : list string) :
  in_list x xs = false <-> x ∉ xs.
Proof.
  rewrite <- in_list_elem_of. destruct (in_list x xs); split; congruence.
Qed.

Lemma append_cons (c : ascii) (s t : string) :
  String c s +:+ t = String c (s +:+ t).
Proof. reflexivity. Qed.

Lemma append_empty (t : string) : "" +:+ t = t.
Proof. reflexivity. Qed.

Lemma append_empty_r (s : string) : s +:+ "" = s.
Proof. induction s as [|c s IH]; [done|]. by rewrite append_cons, IH. Qed.

Lemma append_assoc (s t u : string) : s +:+ (t +:+ u) = (s +:+ t) +:+ u.
Proof.
  induction s as [|c s IH]; [done|]. by rewrite !append_cons, IH.
Qed.

Lemma prefix_app (n h : string) :
  String.prefix n h = true <-> exists post, h = n +:+ post.
Proof.
  revert h. induction n as [|c n IH]; intros [|d h]; simpl.
  - split; [intros _; by exists "" | done].
  - split; [intros _; by exists (String d h) | done].
  - split; [done | by intros (? & ?)].
  - setoid_rewrite append_cons.
    destruct (Ascii.ascii_dec c d) as [->|Hne].
    + rewrite IH. split; intros (post & Hpost); exists post; congruence.
    + split; [done | intros (post & Hpost); congruence].
Qed.

Lemma contains_unfold (n h : string) :
  contains n h
  = String.prefix n h
    || match h with EmptyString => false | String _ h' => contains n h' end.
Proof. by destruct h. Qed.

(** [contains] is the substring test. *)
Lemma contains_app (n h : string) :
  contains n h = true <-> exists pre post, h = pre +:+ n +:+ post.
Proof.
  induction h as [|d h IH]; rewrite contains_unfold, orb_true_iff, prefix_app.
  - split.
    + intros [(post & Hp) | ?]; [|done]. by exists "", post.
    + intros (pre & post & Hp). left.
      destruct pre as [|? ?]; [by exists post | done].
  - rewrite IH. split.
    + intros [(post & Hp) | (pre & post & Hp)].
      * by exists "", post.
      * exists (String d pre), post. rewrite append_cons. by rewrite Hp.
    + intros (pre & post & Hp). destruct pre as [|c pre].
      * left. by exists post.
      * right. exists pre, post. rewrite append_cons in Hp. congruence.
Qed.

(** The first element of a filtered list is the first element of the
    list that passes the test. *)
Lemma filter_first {A} (p : A -> bool) (pre post : list A) (x : A) :
  (forall y, y ∈ pre -> p y = false) -> p x = true ->
  List.filter p (pre ++ x :: post) = x :: List.filter p post.
Proof.
  intros Hpre Hx. induction pre as [|y pre IH]; simpl.
  - by rewrite Hx.
  - rewrite (Hpre y) by apply list_elem_of_here.
    apply IH. intros z Hz. apply Hpre. by apply list_elem_of_further.
Qed.

Lemma filter_none_passes {A} (p : A -> bool) (l : list A) :
  (forall y, y ∈ l -> p y = false) -> List.filter p l = [].
Proof.
  induction l as [|y l IH]; intros Hl; simpl; [done|].
  rewrite (Hl y) by apply list_elem_of_here.
  apply IH. intros z Hz. apply Hl. by apply list_elem_of_further.
Qed.

(** [strip] leaves nothing exactly when every character is a space. *)
Lemma lstrip_empty (s : string) :
  lstrip s = "" <-> forallb is_space (String.list_ascii_of_string s) = true.
Proof.
  induction s as [|c s IH]; simpl; [done|].
  destruct (is_space c); simpl; [exact IH | done].
Qed.

Lemma rstrip_empty (s : string) : s = "" -> rstrip s = "".
Proof. by intros ->. Qed.

Lemma lstrip_head (s : string) :
  match lstrip s with
  | EmptyString => True
  | String c _ => is_space c = false
  end.
Proof.
  induction s as [|c s IH]; simpl; [done|].
  destruct (is_space c) eqn:Hc; [exact IH | simpl; by rewrite Hc].
Qed.

Lemma strip_empty (s : string) :
  strip s = "" <-> forallb is_space (String.list_ascii_of_string s) = true.
Proof.
  rewrite <- lstrip_empty. unfold strip. split.
  - intros Hr. pose proof (lstrip_head s) as Hh.
    destruct (lstrip s) as [|c t]; [done|]. simpl in Hr.
    destruct (rstrip t); [by rewrite Hh in Hr | done].
  - by intros ->.
Qed.

End StringFacts.

(** ** Address-column resolution *)

Section AddressColumn.
Context `{F : Float} `{X : Expat}.

Lemma names_address_contains (col : string) :
  contains "address" (lower col) = true <-> names_address col.
Proof. apply contains_app. Qed.

Lemma names_address_false (col : string) :
  ~ names_address col -> contains "address" (lower col) = false.
Proof.
  rewrite <- names_address_contains. by destruct (contains _ _).
Qed.

(** Every part of a joined list occurs in the joined text. *)
Lemma join_contains (sep c : string) (parts : list string) :
  c ∈ parts -> contains c (join sep parts) = true.
Proof.
  intros Hc. apply contains_app.
  induction parts as [|p parts IH]; [by apply elem_of_nil in Hc|].
  apply elem_of_cons in Hc as [-> | Hc].
  - destruct parts as [|q parts].
    + exists "", "". simpl. by rewrite append_empty, append_empty_r.
    + exists "", (sep +:+ join sep (q :: parts)). by rewrite append_empty.
  - destruct (IH Hc) as (pre & post & Heq).
    destruct parts as [|q parts]; [by apply elem_of_nil in Hc|].
    exists (p +:+ sep +:+ pre), post.
    change (join sep (p :: q :: parts)) with (p +:+ sep +:+ join sep (q :: parts)).
    rewrite Heq. by rewrite !append_assoc.
Qed.

(** C8.  Address-column resolution.  A configured name that occurs in
    the header is used as it is.  Otherwise the first header that
    contains the word address, whatever the case of its letters, is
    used.  Otherwise the lookup raises an error whose message ends with
    the header names joined by a comma, so every header occurs in it,
    and a run that takes the address path stops with that error. *)
Theorem find_address_column_resolution
    (headers : list string) (column_name : string) :
  (column_name ∈ headers ->
   find_address_column headers column_name = Ok column_name)
  /\ (column_name ∉ headers ->
      forall pre col post,
        headers = pre ++ col :: post ->
        (forall c, c ∈ pre -> ~ names_address c) ->
        names_address col ->
        find_address_column headers column_name = Ok col)
  /\ (column_name ∉ headers ->
      (forall c, c ∈ headers -> ~ names_address c) ->
      find_address_column headers column_name
      = Raise (column_not_found column_name headers)
      /\ (forall c, c ∈ headers ->
          exists msg, column_not_found column_name headers = ValueError msg
                      /\ contains c msg = true)
      /\ (forall available provider o data document_name name_column
                 skip_geocoding lat_column lon_column,
          data <> [] ->
          skip_geocoding && truthy lat_column && truthy lon_column = false ->
          convert_csv_to_kml available provider o data headers document_name
            column_name name_column skip_geocoding lat_column lon_column
          = Raise (column_not_found column_name headers))).
Proof.
  split; [|split].
  - intros Hin. unfold find_address_column.
    by rewrite (proj2 (in_list_elem_of _ _) Hin).
  - intros Hnot pre col post -> Hpre Hcol. unfold find_address_column.
    rewrite (proj2 (in_list_false _ _) Hnot).
    rewrite filter_first; [done | | by apply names_address_contains].
    intros c Hc. by apply names_address_false, Hpre.
  - intros Hnot Hnone.
    assert (find_address_column headers column_name
            = Raise (column_not_found column_name headers)) as Hfind.
    { unfold find_address_column.
      rewrite (proj2 (in_list_false _ _) Hnot).
      rewrite filter_none_passes; [done|].
      intros c Hc. by apply names_address_false, Hnone. }
    split; [exact Hfind | split].
    + intros c Hc. eexists. split; [reflexivity|].
      apply contains_app.
      pose proof (join_contains ", " c headers Hc) as Hj.
      apply contains_app in Hj as (pre & post & ->).
      exists ("Column '" +:+ column_name
              +:+ "' not found in CSV. Available columns: " +:+ pre), post.
      by rewrite !append_assoc.
    + intros available provider o data document_name name_column
        skip_geocoding lat_column lon_column Hdata Hpath.
      unfold convert_csv_to_kml.
      destruct data as [|r data]; [done|]. simpl length. simpl Nat.eqb. cbv iota.
      rewrite Hpath. cbv zeta. by rewrite Hfind.
Qed.

End AddressColumn.

(** ** The resolver *)

Section Resolver.
Context `{F : Float} `{X : Expat}.

Lemma lookups_of_app (a : string) (x y : list event) :
  lookups_of a (x ++ y) = lookups_of a x + lookups_of a y.
Proof. unfold lookups_of. by rewrite List.filter_app, length_app. Qed.

Lemma lookups_of_prints (a : string) (x : list event) :
  Forall is_print x -> lookups_of a x = 0.
Proof.
  induction 1 as [|e x [line ->] _ IH]; [done|]. exact IH.
Qed.

Lemma lookups_of_lookup (a b : string) :
  lookups_of a [Lookup b] = if decide (b = a) then 1 else 0.
Proof.
  unfold lookups_of. simpl. destruct (String.eqb_spec b a); by case_decide.
Qed.

Lemma paced_app (d : Q) (x y : list event) :
  paced d x -> paced d y -> paced d (x ++ y).
Proof.
  intros Hx Hy i a Hi. apply lookup_app_Some in Hi as [Hi | [Hle Hi]].
  - destruct (Hx i a Hi) as (j & -> & Hj). exists j. split; [done|].
    by apply lookup_app_l_Some.
  - destruct (Hy _ a Hi) as (j & Hij & Hj). exists (length x + j). split; [lia|].
    by rewrite lookup_app_r, Nat.add_comm, Nat.add_sub by lia.
Qed.

Lemma paced_prints (d : Q) (x : list event) : Forall is_print x -> paced d x.
Proof.
  intros Hx i a Hi. apply list_elem_of_lookup_2 in Hi.
  rewrite Forall_forall in Hx. by destruct (Hx _ Hi).
Qed.

Lemma paced_call (d : Q) (a : string) : paced d [Sleep d; Lookup a].
Proof.
  intros [|[|i]] b Hi; [done | | done]. by exists 0.
Qed.

(** The address is rejected before the cache is read. *)
Lemma geocode_address_blank (g : geocoder) (a : string)
    (cache : geocode_cache) (d : Q) (out : list event) :
  strip a = "" -> geocode_address g a cache d out = (None, cache, out).
Proof.
  intros Hs. unfold geocode_address. rewrite Hs.
  by rewrite String.eqb_refl, orb_true_r.
Qed.

Lemma not_blank_test (a : string) :
  strip a <> "" -> negb (truthy_str a) || String.eqb (strip a) "" = false.
Proof.
  intros Hs. destruct a as [|c a]; [done|]. simpl.
  by destruct (String.eqb_spec (strip (String c a)) "").
Qed.

(** A cached address is answered from the cache. *)
Lemma geocode_address_hit (g : geocoder) (a : string)
    (cache : geocode_cache) (d : Q) (out : list event) (v : option coordinate) :
  strip a <> "" -> cache !! a = Some v ->
  geocode_address g a cache d out = (v, cache, out).
Proof.
  intros Hs Hc. unfold geocode_address. by rewrite not_blank_test, Hc.
Qed.

(** What a call did, in three cases: nothing, one paced provider call
    followed by prints, or one print (a delay that [time.sleep] refuses). *)
Lemma geocode_address_cases (g : geocoder) (a : string)
    (cache : geocode_cache) (d : Q) (out : list event) :
  let '(r, cache', out') := geocode_address g a cache d out in
  (cache' = cache /\ out' = out
   /\ (strip a = "" \/ exists v, cache !! a = Some v /\ r = v))
  \/ (strip a <> "" /\ cache !! a = None /\ cache' = <[a := r]> cache
      /\ exists diag, Forall is_print diag
                      /\ (out' = out ++ [Sleep d; Lookup a] ++ diag
                          \/ r = None /\ diag <> [] /\ out' = out ++ diag)).
Proof.
  destruct (decide (strip a = "")) as [Hs|Hs].
  { rewrite geocode_address_blank by done. left. auto. }
  destruct (cache !! a) as [v|] eqn:Hc.
  { rewrite (geocode_address_hit _ _ _ _ _ v) by done. left.
    repeat (split; [done|]). right. by exists v. }
  unfold geocode_address. rewrite not_blank_test, Hc by done.
  assert (forall line, Forall is_print [Print line]) as Hp.
  { intros line. repeat constructor. by exists line. }
  destruct (Qle_bool 0 d).
  - rewrite <- !(assoc_L (++)).
    destruct (g _ a); right; repeat (split; [done|]).
    + exists []. split; [constructor | left]. done.
    + exists []. split; [constructor | left]. done.
    + eexists. split; [apply Hp | left]. by rewrite <- !(assoc_L (++)).
    + eexists. split; [apply Hp | left]. by rewrite <- !(assoc_L (++)).
    + eexists. split; [apply Hp | left]. by rewrite <- !(assoc_L (++)).
  - right. repeat (split; [done|]). eexists. split; [apply Hp | right]. done.
Qed.


Lemma all_answered_insert (g : geocoder) (m : geocode_cache) (a : string)
    (r : option coordinate) :
  all_answered g m -> (forall c, r = Some c -> answered g a c) ->
  all_answered g (<[a := r]> m).
Proof.
  intros Hm Hr b c. rewrite lookup_insert. case_decide as Hab.
  - intros [= ->]. subst b. by apply Hr.
  - apply Hm.
Qed.

Lemma geocode_address_answered (g : geocoder) (a : string)
    (cache : geocode_cache) (d : Q) (out : list event) :
  all_answered g cache ->
  let '(r, cache', _) := geocode_address g a cache d out in
  all_answered g cache' /\ (forall c, r = Some c -> answered g a c).
Proof.
  intros Hcache. unfold geocode_address.
  destruct (negb (truthy_str a) || String.eqb (strip a) ""); [done|].
  destruct (cache !! a) as [v|] eqn:Hc.
  { split; [done|]. intros c ->. by apply Hcache. }
  destruct (Qle_bool 0 d); [|by split; [apply all_answered_insert|]].
  destruct (g _ a) as [loc| | | |] eqn:Hg;
    try by split; [apply all_answered_insert|].
  assert (forall c, Some (longitude loc, latitude loc) = Some c -> answered g a c).
  { intros c [= <-]. by eexists _, loc. }
  split; [by apply all_answered_insert | done].
Qed.

(** The events of the loop of [batch_geocode]: every provider call is
    paced, no address is looked up twice, and an address that is cached,
    blank or not in the list is not looked up at all. *)
Lemma batch_geocode_loop_events (g : geocoder) (total : nat)
    (addresses : list string) :
  forall (idx : nat) (cache results : geocode_cache) (out : list event),
  let '(_, _, out') :=
    batch_geocode_loop g total idx addresses cache results out in
  exists new,
    out' = out ++ new
    /\ paced default_delay new
    /\ forall a, lookups_of a new <= 1
                 /\ (is_Some (cache !! a) \/ strip a = "" \/ a ∉ addresses ->
                     lookups_of a new = 0).
Proof.
  induction addresses as [|x rest IH]; intros idx cache results out; simpl.
  { exists []. rewrite app_nil_r. split; [done|]. split.
    - by intros i a Hi.
    - intros a. split; [cbn; lia | done]. }
  match goal with |- context [geocode_address g x cache default_delay ?o] =>
    pose proof (geocode_address_cases g x cache default_delay o) as Hstep;
    destruct (geocode_address g x cache default_delay o) as [[r cache1] out1]
  end.
  specialize (IH (S idx) cache1 (<[x := r]> results) out1).
  destruct (batch_geocode_loop g total (S idx) rest cache1
              (<[x := r]> results) out1) as [[results' cache'] out'].
  destruct IH as (new & -> & Hpaced & Hcount).
  assert (forall line, Forall is_print [Print line]) as Hp.
  { intros line. repeat constructor. by exists line. }
  destruct Hstep as [(-> & -> & _) | (Hx & Hmiss & -> & diag & Hdiag & Hout)].
  - eexists. split; [by rewrite <- (assoc_L (++))|]. split.
    + apply paced_app; [by apply paced_prints | done].
    + intros a. destruct (Hcount a) as [Hle Hzero].
      rewrite lookups_of_app, (lookups_of_prints a [_]) by done. simpl.
      split; [done|]. intros [Hc | [Hs | Hn]]; apply Hzero; auto.
      right. right. by apply not_elem_of_cons in Hn as [_ ?].
  - assert (forall a, is_Some (cache !! a) -> is_Some (<[x := r]> cache !! a))
      as Hmono.
    { intros a Ha. rewrite lookup_insert. by case_decide. }
    destruct Hout as [-> | (-> & _ & ->)].
    + eexists. split; [by rewrite <- !(assoc_L (++))|]. split.
      * repeat apply paced_app;
          [by apply paced_prints | apply paced_call | by apply paced_prints | done].
      * intros a. destruct (Hcount a) as [Hle Hzero].
        rewrite !lookups_of_app, (lookups_of_prints a [_]),
          (lookups_of_prints a diag) by done.
        change [Sleep default_delay; Lookup x]
          with ([Sleep default_delay] ++ [Lookup x]).
        rewrite lookups_of_app, lookups_of_lookup. simpl.
        case_decide as Hxa.
        -- subst a. rewrite Hzero by (left; by rewrite lookup_insert_eq).
           split; [lia|]. intros [[v Hc] | [Hs | Hn]]; [congruence | done |].
           by apply not_elem_of_cons in Hn as [? _].
        -- split; [lia|]. intros [Hc | [Hs | Hn]]; simpl; apply Hzero; auto.
           right. right. by apply not_elem_of_cons in Hn as [_ ?].
    + eexists. split; [by rewrite <- !(assoc_L (++))|]. split.
      * repeat apply paced_app; [by apply paced_prints | by apply paced_prints | done].
      * intros a. destruct (Hcount a) as [Hle Hzero].
        rewrite !lookups_of_app, (lookups_of_prints a [_]),
          (lookups_of_prints a diag) by done. simpl.
        split; [done|]. intros [Hc | [Hs | Hn]]; apply Hzero; auto.
        right. right. by apply not_elem_of_cons in Hn as [_ ?].
Qed.




Lemma call_in_app (out new history : list event) (a : string) :
  call_in out history a -> call_in (out ++ new) history a.
Proof.
  intros [later ->]. exists (later ++ new). by rewrite <- (assoc_L (++)).
Qed.

Lemma traced_app (g : geocoder) (out new : list event) (m : geocode_cache) :
  traced g out m -> traced g (out ++ new) m.
Proof.
  intros Hm a r Ha. destruct (Hm a r Ha) as [?|(history & Hcall & Hr)]; [by left|].
  right. exists history. split; [by apply call_in_app | done].
Qed.

Lemma traced_insert (g : geocoder) (out : list event) (m : geocode_cache)
    (a : string) (r : option coordinate) :
  traced g out m ->
  (strip a = "" /\ r = None)
  \/ (exists history, call_in out history a /\ r = coordinates_of (g history a)) ->
  traced g out (<[a := r]> m).
Proof.
  intros Hm Hr b v. rewrite lookup_insert. case_decide as Hab.
  - intros [= <-]. by subst b.
  - apply Hm.
Qed.

Lemma traced_empty (g : geocoder) (out : list event) : traced g out ∅.
Proof. intros a r. by rewrite lookup_empty. Qed.

(** One call of [geocode_address] with a delay that [time.sleep] takes:
    the events grow, and the result and the cache hold answers to calls
    among them. *)
Lemma geocode_address_traced (g : geocoder) (a : string)
    (cache : geocode_cache) (d : Q) (out : list event) :
  Qle_bool 0 d = true -> traced g out cache ->
  let '(r, cache', out') := geocode_address g a cache d out in
  (exists new, out' = out ++ new)
  /\ traced g out' cache'
  /\ ((strip a = "" /\ r = None)
      \/ exists history, call_in out' history a /\ r = coordinates_of (g history a)).
Proof.
  intros Hd Hcache.
  destruct (decide (strip a = "")) as [Hs|Hs].
  { rewrite geocode_address_blank by done.
    split; [exists []; by rewrite app_nil_r|]. split; [done|]. by left. }
  destruct (cache !! a) as [v|] eqn:Hc.
  { rewrite (geocode_address_hit _ _ _ _ _ v) by done.
    split; [exists []; by rewrite app_nil_r|]. split; [done|].
    destruct (Hcache a v Hc) as [[? _]|?]; [done | by right]. }
  unfold geocode_address. rewrite not_blank_test, Hc, Hd by done. cbv zeta.
  assert (forall diag,
            call_in ((out ++ [Sleep d]) ++ [Lookup a] ++ diag) (out ++ [Sleep d]) a)
    as Hcall.
  { intros diag. by exists diag. }
  assert (forall diag r,
            r = coordinates_of (g (out ++ [Sleep d]) a) ->
            (exists new, (out ++ [Sleep d]) ++ [Lookup a] ++ diag = out ++ new)
            /\ traced g ((out ++ [Sleep d]) ++ [Lookup a] ++ diag) (<[a := r]> cache)
            /\ ((strip a = "" /\ r = None)
                \/ exists history,
                     call_in ((out ++ [Sleep d]) ++ [Lookup a] ++ diag) history a
                     /\ r = coordinates_of (g history a))) as Hstep.
  { intros diag r Hr. split; [eexists; by rewrite <- !(assoc_L (++))|].
    assert (exists history,
               call_in ((out ++ [Sleep d]) ++ [Lookup a] ++ diag) history a
               /\ r = coordinates_of (g history a)) as Hthis.
    { exists (out ++ [Sleep d]). split; [apply Hcall | done]. }
    split; [|by right].
    apply traced_insert; [|by right].
    rewrite <- (assoc_L (++)). by apply traced_app. }
  destruct (g (out ++ [Sleep d]) a) as [loc| |e|e|e] eqn:Hg.
  - apply (Hstep [] _). by simpl.
  - apply (Hstep [] _). by simpl.
  - rewrite <- (assoc_L (++) _ [Lookup a]). apply (Hstep [_] _). by simpl.
  - rewrite <- (assoc_L (++) _ [Lookup a]). apply (Hstep [_] _). by simpl.
  - rewrite <- (assoc_L (++) _ [Lookup a]). apply (Hstep [_] _). by simpl.
Qed.

(** The results of the loop of [batch_geocode] are answers to calls
    among its events. *)
Lemma batch_geocode_loop_traced (g : geocoder) (total : nat)
    (addresses : list string) :
  forall (idx : nat) (cache results : geocode_cache) (out : list event),
  traced g out cache -> traced g out results ->
  let '(results', _, out') :=
    batch_geocode_loop g total idx addresses cache results out in
  traced g out' results'.
Proof.
  induction addresses as [|x rest IH]; intros idx cache results out Hc Hr; simpl.
  { done. }
  match goal with |- context [geocode_address g x cache default_delay ?o] =>
    pose proof (geocode_address_traced g x cache default_delay o eq_refl
                  (traced_app g out _ cache Hc)) as Hstep;
    pose proof (traced_app g out [Print ("Geocoding " +:+ str_of_nat idx +:+ "/"
                                +:+ str_of_nat total +:+ " ("
                                +:+ percent_1f idx total +:+ "%): "
                                +:+ slice_to 50 x +:+ "...")] results Hr) as Hr1;
    destruct (geocode_address g x cache default_delay o) as [[r cache1] out1]
  end.
  destruct Hstep as ((new & ->) & Hc1 & Hthis).
  apply IH; [done|].
  apply traced_insert; [by apply traced_app | done].
Qed.

End Resolver.

(** ** The two loops over the rows *)

Section Rows.
Context `{F : Float} `{X : Expat}.

(** The coordinate loop keeps, in order, the rows whose body yields a
    marker and prints one line, with the index, for each other row. *)
Lemma coordinate_rows_enumerate (headers : list string) (address_column : string)
    (name_column : cell) (lat_column lon_column : string) (data : list csv_row) :
  forall (idx : nat) (placemarks : list entry) (out : list event),
  coordinate_rows headers address_column name_column lat_column lon_column
    idx data placemarks out
  = (placemarks
     ++ omap (fun '(i, r) =>
                entry_of r <$> coordinate_row headers address_column name_column
                                 lat_column lon_column i (fields r)) (enumerate idx data),
     out
     ++ omap (fun '(i, r) =>
                match coordinate_row headers address_column name_column
                        lat_column lon_column i (fields r) with
                | None => Some (skipping i)
                | Some _ => None
                end) (enumerate idx data)).
Proof.
  induction data as [|r data IH]; intros idx placemarks out; simpl.
  { by rewrite !app_nil_r. }
  destruct (coordinate_row _ _ _ _ _ idx r) as [p|]; rewrite IH.
  - by rewrite <- (assoc_L (++)).
  - by rewrite <- (assoc_L (++)).
Qed.

(** The loop of the address path keeps the rows whose address has
    coordinates and prints a warning for each other row. *)
Lemma geocoded_rows_omap (headers : list string) (address_col : string)
    (name_column : cell) (geocoded_addresses : geocode_cache) (data : list csv_row) :
  forall (success_count : nat) (placemarks : list entry) (out : list event),
  geocoded_rows headers address_col name_column geocoded_addresses
    data success_count placemarks out
  = (placemarks
     ++ omap (fun r : csv_row =>
                entry_of r <$> geocoded_row headers address_col name_column
                                 geocoded_addresses r) data,
     success_count
     + length (omap (fun r : csv_row =>
                       geocoded_row headers address_col name_column
                         geocoded_addresses r) data),
     out
     ++ omap (fun r : csv_row =>
                match geocoded_row headers address_col name_column
                        geocoded_addresses r with
                | None => Some (could_not_geocode (get r address_col (Some "")))
                | Some _ => None
                end) data).
Proof.
  induction data as [|r data IH]; intros success_count placemarks out; simpl.
  { by rewrite !app_nil_r, Nat.add_0_r. }
  destruct (geocoded_row _ _ _ _ r) as [p|]; rewrite IH; simpl.
  - by rewrite <- (assoc_L (++)), Nat.add_succ_r.
  - by rewrite <- (assoc_L (++)).
Qed.

Lemma entries_length {A} (body : A -> option placemark) (sur : A -> list string)
    (l : list A) :
  length (omap (fun x => (fun p => (p, sur x)) <$> body x) l) = length (omap body l).
Proof.
  induction l as [|x l IH]; [done|]. cbn [omap list_omap].
  destruct (body x) as [p|]; [|apply IH].
  cbn [fmap option_fmap option_map length]. f_equal. apply IH.
Qed.

Lemma coordinate_entries_placemarks (body : nat -> row -> option placemark)
    (l : list (nat * csv_row)) :
  map fst (omap (fun '(i, r) => entry_of r <$> body i r) l)
  = omap (fun '(i, r) => body i (fields r)) l.
Proof.
  induction l as [|[i r] l IH]; [done|]. cbn [omap list_omap].
  destruct (body i r) as [p|]; [|apply IH].
  cbn [fmap option_fmap option_map map fst entry_of]. f_equal. apply IH.
Qed.

Lemma geocoded_entries_placemarks (body : row -> option placemark)
    (l : list csv_row) :
  map fst (omap (fun r : csv_row => entry_of r <$> body r) l)
  = omap (fun r : csv_row => body r) l.
Proof.
  induction l as [|r l IH]; [done|]. cbn [omap list_omap].
  destruct (body r) as [p|]; [|apply IH].
  cbn [fmap option_fmap option_map map fst entry_of]. f_equal. apply IH.
Qed.

(** What a run that has ended says of its entries. *)
Lemma finished_ok (placemarks : list entry) (document_name : string)
    (out : list event) (c : conversion) :
  finished placemarks document_name out = Ok c ->
  c = Conversion (map fst placemarks)
        (generate_kml_tree (map fst placemarks) document_name) out
  /\ Forall (fun m : entry => m.2 = []) placemarks
  /\ ET.parses (generate_kml_tree (map fst placemarks) document_name) = true.
Proof.
  unfold finished, generate_kml.
  destruct (existsb _ _) eqn:Hany; [done|].
  destruct (ET.parses _) eqn:Hparses; [|done].
  intros [= <-]. split; [done|]. split; [|done].
  rewrite Forall_forall. intros [p under_none] Hin.
  destruct under_none as [|x l]; [done|].
  assert (existsb (fun '(_, under_none) => negb (Nat.eqb (length under_none) 0))
            placemarks = true) as Hex; [|congruence].
  apply existsb_exists. exists (p, x :: l). split; [|done].
  by apply list_elem_of_In.
Qed.

End Rows.

(** ** Whole runs *)

Section Runs.
Context `{F : Float} `{X : Expat}.

(** A run of the coordinate path, written out: the loop goes through
    every row, and the run ends as [generate_kml] does on the entries
    the loop built. *)
Lemma convert_coordinate_path (available : bool) (g : geocoder) (o : set_order)
    (data : list csv_row) (headers : list string) (document_name : string)
    (address_column : string) (name_column : cell)
    (lat_column lon_column : string) :
  data <> [] -> truthy_str lat_column = true -> truthy_str lon_column = true ->
  lat_column ∈ headers -> lon_column ∈ headers ->
  let body := coordinate_row headers address_column name_column
                lat_column lon_column in
  let placemarks :=
    omap (fun '(i, r) => entry_of r <$> body i (fields r)) (enumerate 1 data) in
  convert_csv_to_kml available g o data headers document_name
    address_column name_column true (Some lat_column) (Some lon_column)
  = finished placemarks document_name
      ([Print ("Found " +:+ str_of_nat (length data) +:+ " rows in CSV");
        Print "Using latitude and longitude columns from CSV"]
       ++ omap (fun '(i, r) =>
                  match body i (fields r) with
                  | None => Some (skipping i)
                  | Some _ => None
                  end) (enumerate 1 data)
       ++ [Print ("Generating KML with " +:+ str_of_nat (length placemarks)
                  +:+ " placemarks...")]).
Proof.
  intros Hdata Hlat Hlon Hlat_in Hlon_in body placemarks.
  unfold convert_csv_to_kml.
  replace (Nat.eqb (length data) 0) with false by by destruct data.
  cbn [truthy str andb]. rewrite Hlat, Hlon. cbn [andb].
  rewrite (proj2 (in_list_elem_of _ _) Hlat_in),
    (proj2 (in_list_elem_of _ _) Hlon_in). cbn [negb].
  rewrite coordinate_rows_enumerate. by cbn [app].
Qed.

(** A run of the address path, written out: both loops go through their
    lists, and the run ends as [generate_kml] does on the entries built. *)
Lemma convert_address_path (g : geocoder) (o : set_order)
    (data : list csv_row) (headers : list string) (document_name : string)
    (address_column : string) (name_column : cell)
    (skip_geocoding : bool) (lat_column lon_column : cell) (address_col : string) :
  data <> [] ->
  skip_geocoding && truthy lat_column && truthy lon_column = false ->
  find_address_column headers address_column = Ok address_col ->
  let unique_addresses :=
    list_of_set o
      (filter_none (map (fun r : csv_row => get r address_col (Some "")) data)) in
  let '(geocoded_addresses, _, out) :=
    batch_geocode_loop g (length unique_addresses) 1 unique_addresses ∅ ∅
      [Print ("Found " +:+ str_of_nat (length data) +:+ " rows in CSV");
       Print "Geocoding addresses...";
       Print ("Geocoding " +:+ str_of_nat (length unique_addresses)
              +:+ " unique addresses...")] in
  let body := geocoded_row headers address_col name_column geocoded_addresses in
  let placemarks := omap (fun r : csv_row => entry_of r <$> body r) data in
  convert_csv_to_kml true g o data headers document_name
    address_column name_column skip_geocoding lat_column lon_column
  = finished placemarks document_name
      (out
       ++ omap (fun r : csv_row =>
                  match body r with
                  | None => Some (could_not_geocode (get r address_col (Some "")))
                  | Some _ => None
                  end) data
       ++ [Print ("Successfully geocoded " +:+ str_of_nat (length placemarks)
                  +:+ "/" +:+ str_of_nat (length data) +:+ " addresses");
           Print ("Generating KML with " +:+ str_of_nat (length placemarks)
                  +:+ " placemarks...")]).
Proof.
  intros Hdata Hpath Hfind unique_addresses.
  unfold convert_csv_to_kml.
  replace (Nat.eqb (length data) 0) with false by by destruct data.
  rewrite Hpath, Hfind. cbv zeta. fold unique_addresses.
  unfold batch_geocode. cbn [negb app].
  destruct (batch_geocode_loop _ _ _ _ _ _ _) as [[geocoded_addresses c] out].
  rewrite geocoded_rows_omap. cbn [Nat.add app].
  rewrite (entries_length (fun r : csv_row => geocoded_row headers address_col
                             name_column geocoded_addresses r) surplus).
  unfold finished, entry_of.
  by rewrite <- !(assoc_L (++)).
Qed.

End Runs.

(** ** Properties of the address resolver *)

Section ResolverClaims.
Context `{F : Float} `{X : Expat}.

Lemma omap_prints {A} (f : A -> option event) (l : list A) :
  (forall x e, f x = Some e -> is_print e) -> Forall is_print (omap f l).
Proof.
  intros Hf. induction l as [|x l IH]; simpl; [constructor|].
  destruct (f x) as [e|] eqn:Hx; [constructor; eauto | done].
Qed.

Lemma skipping_prints {A} (body : nat -> A -> option placemark)
    (l : list (nat * A)) :
  Forall is_print
    (omap (fun '(i, r) => match body i r with
                          | None => Some (skipping i)
                          | Some _ => None
                          end) l).
Proof.
  apply omap_prints. intros [i r] e. destruct (body i r); [done|].
  intros [= <-]. by eexists.
Qed.

Lemma could_not_geocode_prints (body : row -> option placemark)
    (address_col : string) (l : list csv_row) :
  Forall is_print
    (omap (fun r : csv_row =>
             match body r with
             | None => Some (could_not_geocode (get r address_col (Some "")))
             | Some _ => None
             end) l).
Proof.
  apply omap_prints. intros r e. destruct (body r); [done|].
  intros [= <-]. by eexists.
Qed.

Lemma print_is_print (line : string) : is_print (Print line).
Proof. by exists line. Qed.

Lemma paced_nil (d : Q) : paced d [].
Proof. by intros i a Hi. Qed.

Lemma paced_print_cons (d : Q) (line : string) (l : list event) :
  paced d l -> paced d (Print line :: l).
Proof.
  intros Hl. apply (paced_app d [Print line] l); [|done].
  apply paced_prints. apply Forall_cons_2; [apply print_is_print | constructor].
Qed.

Lemma lookups_of_print_cons (a line : string) (l : list event) :
  lookups_of a (Print line :: l) = lookups_of a l.
Proof. reflexivity. Qed.

(** The events of any run that ends: provider calls are paced, no
    address is looked up twice and a blank address is not looked up. *)
Lemma convert_console (available : bool) (g : geocoder) (o : set_order)
    (data : list csv_row) (headers : list string) (document_name : string)
    (address_column : string) (name_column : cell)
    (skip_geocoding : bool) (lat_column lon_column : cell) (c : conversion) :
  convert_csv_to_kml available g o data headers document_name
    address_column name_column skip_geocoding lat_column lon_column = Ok c ->
  paced default_delay (console c)
  /\ forall a, lookups_of a (console c) <= 1
               /\ (strip a = "" -> lookups_of a (console c) = 0).
Proof.
  unfold convert_csv_to_kml.
  destruct (Nat.eqb (length data) 0); [done|].
  destruct (skip_geocoding && truthy lat_column && truthy lon_column).
  - destruct (negb (in_list (str lat_column) headers)); [done|].
    destruct (negb (in_list (str lon_column) headers)); [done|].
    rewrite coordinate_rows_enumerate.
    destruct (generate_kml _ _) as [kml|]; [|done].
    intros [= <-]. simpl console.
    match goal with |- context [paced _ ?l] =>
      assert (Forall is_print l) as Hall
    end.
    { do 2 (apply Forall_cons_2; [apply print_is_print|]).
      apply Forall_app_2;
        [apply (skipping_prints
                  (fun i (r : csv_row) =>
                     coordinate_row headers address_column name_column
                       (str lat_column) (str lon_column) i r))|].
      apply Forall_cons_2; [apply print_is_print | constructor]. }
    split; [by apply paced_prints|].
    intros a. rewrite (lookups_of_prints a _ Hall). split; [lia | done].
  - destruct (find_address_column headers address_column) as [col|]; [|done].
    unfold batch_geocode. destruct available; [|done]. cbn [negb].
    match goal with |- context [batch_geocode_loop g ?t 1 ?l ∅ ∅ ?out] =>
      pose proof (batch_geocode_loop_events g t l 1 ∅ ∅ out) as Hloop;
      destruct (batch_geocode_loop g t 1 l ∅ ∅ out) as [[results cache] out1]
    end.
    destruct Hloop as (new & -> & Hpaced & Hcount).
    rewrite geocoded_rows_omap.
    destruct (generate_kml _ _) as [kml|]; [|done].
    intros [= <-]. cbn [console].
    pose proof (could_not_geocode_prints
                  (geocoded_row headers col name_column results) col data) as Hwarn.
    split.
    + do 3 apply paced_print_cons.
      repeat apply paced_app; try done; apply paced_prints; try done;
        (apply Forall_cons_2; [apply print_is_print | constructor]).
    + intros a. destruct (Hcount a) as [Hle Hzero].
      rewrite !lookups_of_print_cons, !lookups_of_app.
      rewrite (lookups_of_prints a _ Hwarn).
      rewrite !(lookups_of_prints a [_])
        by (apply Forall_cons_2; [apply print_is_print | constructor]).
      split; [lia|]. intros Ha. rewrite Hzero; auto.
Qed.


Lemma whitespace_only_strip (a : string) : whitespace_only a <-> strip a = "".
Proof. unfold whitespace_only. by rewrite strip_empty. Qed.

Lemma elem_of_filter_none (cells : list cell) (a : string) :
  a ∈ filter_none cells <-> Some a ∈ cells /\ a <> "".
Proof.
  unfold filter_none. rewrite list_elem_of_omap. split.
  - intros ([s|] & Hin & Hs); [|done]. destruct s as [|ch s]; [done|].
    simpl in Hs. injection Hs as <-. by split.
  - intros [Hin Ha]. exists (Some a). split; [done|].
    by destruct a.
Qed.

Lemma elem_of_list_of_set (o : set_order) (xs : list string) (a : string) :
  a ∈ list_of_set o xs <-> a ∈ xs.
Proof.
  unfold list_of_set. by rewrite (iter_perm o), elem_of_remove_dups.
Qed.

Lemma NoDup_list_of_set (o : set_order) (xs : list string) :
  NoDup (list_of_set o xs).
Proof.
  unfold list_of_set. rewrite (iter_perm o). apply NoDup_remove_dups.
Qed.

Lemma batch_geocode_events (available : bool) (g : geocoder)
    (addresses : list string) (out out' : list event) (results : geocode_cache) :
  batch_geocode available g addresses out = Ok (results, out') ->
  exists new,
    out' = out ++ new
    /\ paced default_delay new
    /\ forall a, lookups_of a new <= 1
                 /\ (strip a = "" \/ a ∉ addresses -> lookups_of a new = 0).
Proof.
  unfold batch_geocode. destruct available; [|done]. cbn [negb].
  pose proof (batch_geocode_loop_events g (length addresses) addresses 1 ∅ ∅ out)
    as Hloop.
  destruct (batch_geocode_loop _ _ _ _ _ _ _) as [[results1 cache] out1].
  destruct Hloop as (new & -> & Hpaced & Hcount). intros [= <- <-].
  exists new. repeat (split; [done|]). intros a.
  destruct (Hcount a) as [Hle Hzero]. split; [done|]. intros Ha. apply Hzero. tauto.
Qed.

(** C1.  At most one provider call per address and run.  A cached
    address is answered without any event; the list handed to
    [batch_geocode] by the run has no duplicates; whatever list
    [batch_geocode] is given, duplicates included, it looks no address up
    twice; and in the events of a whole run every address is looked up
    at most once, however many rows carry it. *)
Theorem lookup_at_most_once_per_address :
  (forall (g : geocoder) a cache d out v,
      cache !! a = Some v -> (geocode_address g a cache d out).2 = out)
  /\ (forall (o : set_order) (cells : list cell),
         NoDup (list_of_set o (filter_none cells)))
  /\ (forall available (g : geocoder) addresses out results out',
         batch_geocode available g addresses out = Ok (results, out') ->
         exists new, out' = out ++ new /\ forall a, lookups_of a new <= 1)
  /\ (forall available (g : geocoder) o data headers document_name
              address_column name_column skip_geocoding lat_column lon_column c,
         convert_csv_to_kml available g o data headers document_name
           address_column name_column skip_geocoding lat_column lon_column = Ok c ->
         forall a, lookups_of a (console c) <= 1).
Proof.
  repeat split.
  - intros g a cache d out v Hv.
    destruct (decide (strip a = "")) as [Hs|Hs].
    + by rewrite geocode_address_blank.
    + by rewrite (geocode_address_hit g a cache d out v).
  - intros o cells. apply NoDup_list_of_set.
  - intros available g addresses out results out' Hrun.
    destruct (batch_geocode_events _ _ _ _ _ _ Hrun) as (new & -> & _ & Hcount).
    exists new. split; [done|]. intros a. apply Hcount.
  - intros available g o data headers document_name address_column name_column
      skip_geocoding lat_column lon_column c Hrun a.
    by destruct (convert_console _ _ _ _ _ _ _ _ _ _ _ _ Hrun) as [_ Hcount];
      destruct (Hcount a).
Qed.

(** C3.  The delay before each provider call.  The events added by one
    call of [geocode_address] are paced by its [delay]; on a cache miss
    for an address that is not blank they start with the sleep of
    [delay] and the lookup, whatever the provider then answers; the
    events of [batch_geocode] and of a whole run are paced by the default
    delay, which is one. *)
Theorem sleep_before_every_lookup :
  (forall (g : geocoder) a cache d out,
      exists new, (geocode_address g a cache d out).2 = out ++ new /\ paced d new)
  /\ (forall (g : geocoder) a cache d out,
         strip a <> "" -> cache !! a = None -> Qle_bool 0 d = true ->
         exists diag, (geocode_address g a cache d out).2
                      = out ++ [Sleep d; Lookup a] ++ diag
                      /\ Forall is_print diag)
  /\ (forall available (g : geocoder) addresses out results out',
         batch_geocode available g addresses out = Ok (results, out') ->
         exists new, out' = out ++ new /\ paced default_delay new)
  /\ (forall available (g : geocoder) o data headers document_name
              address_column name_column skip_geocoding lat_column lon_column c,
         convert_csv_to_kml available g o data headers document_name
           address_column name_column skip_geocoding lat_column lon_column = Ok c ->
         paced default_delay (console c))
  /\ default_delay = 1%Q.
Proof.
  repeat split.
  - intros g a cache d out.
    pose proof (geocode_address_cases g a cache d out) as Hc.
    destruct (geocode_address g a cache d out) as [[r cache'] out']. simpl.
    destruct Hc as [(_ & -> & _) | (_ & _ & _ & diag & Hdiag & [-> | (_ & _ & ->)])].
    + exists []. by rewrite app_nil_r; split; [|apply paced_nil].
    + eexists. split; [done|].
      apply paced_app; [apply paced_call | by apply paced_prints].
    + exists diag. split; [done | by apply paced_prints].
  - intros g a cache d out Hs Hmiss Hd. unfold geocode_address.
    rewrite not_blank_test, Hmiss, Hd by done.
    destruct (g _ a); simpl; rewrite <- !(assoc_L (++)); simpl.
    + exists []. by split; [|constructor].
    + exists []. by split; [|constructor].
    + eexists [_]. split; [done|]. repeat constructor. apply print_is_print.
    + eexists [_]. split; [done|]. repeat constructor. apply print_is_print.
    + eexists [_]. split; [done|]. repeat constructor. apply print_is_print.
  - intros available g addresses out results out' Hrun.
    destruct (batch_geocode_events _ _ _ _ _ _ Hrun) as (new & -> & Hp & _).
    by exists new.
  - intros available g o data headers document_name address_column name_column
      skip_geocoding lat_column lon_column c Hrun.
    by destruct (convert_console _ _ _ _ _ _ _ _ _ _ _ _ Hrun).
Qed.


(** C4 (amended).  What is excluded before resolution and what is never
    submitted.  The list handed to [batch_geocode] holds, once each, the
    address cells that are non-empty strings: the empty string and [None]
    are left out up front, a string of white space is kept.  A string
    that is empty or white space is answered [None] by [geocode_address]
    before the cache and the provider are touched, so neither
    [batch_geocode] nor a whole run ever submits one to the provider. *)
Theorem blank_addresses_never_submitted :
  (forall (o : set_order) (cells : list cell),
      NoDup (list_of_set o (filter_none cells))
      /\ forall a, a ∈ list_of_set o (filter_none cells)
                   <-> Some a ∈ cells /\ a <> "")
  /\ (forall (g : geocoder) a cache d out,
         whitespace_only a -> geocode_address g a cache d out = (None, cache, out))
  /\ (forall available (g : geocoder) addresses out results out',
         batch_geocode available g addresses out = Ok (results, out') ->
         exists new, out' = out ++ new
                     /\ forall a, whitespace_only a -> lookups_of a new = 0)
  /\ (forall available (g : geocoder) o data headers document_name
              address_column name_column skip_geocoding lat_column lon_column c,
         convert_csv_to_kml available g o data headers document_name
           address_column name_column skip_geocoding lat_column lon_column = Ok c ->
         forall a, whitespace_only a -> lookups_of a (console c) = 0).
Proof.
  split; [|split; [|split]].
  - intros o cells. split; [apply NoDup_list_of_set|].
    intros a. by rewrite elem_of_list_of_set, elem_of_filter_none.
  - intros g a cache d out Ha. apply geocode_address_blank.
    by apply whitespace_only_strip.
  - intros available g addresses out results out' Hrun.
    destruct (batch_geocode_events _ _ _ _ _ _ Hrun) as (new & -> & _ & Hcount).
    exists new. split; [done|]. intros a Ha. apply (Hcount a). left.
    by apply whitespace_only_strip.
  - intros available g o data headers document_name address_column name_column
      skip_geocoding lat_column lon_column c Hrun a Ha.
    destruct (convert_console _ _ _ _ _ _ _ _ _ _ _ _ Hrun) as [_ Hcount].
    apply (Hcount a). by apply whitespace_only_strip.
Qed.

Lemma geocoded_row_description (headers : list string) (address_col : string)
    (name_column : cell) (results : geocode_cache) (r : row) (p : placemark) :
  geocoded_row headers address_col name_column results r = Some p ->
  description p = get r address_col (Some "")
  /\ geocoded_get results (description p) = Some (coordinates p).
Proof.
  unfold geocoded_row.
  destruct (geocoded_get results (get r address_col (Some ""))) as [c|] eqn:Hc;
    [|done].
  intros [= <-]. by simpl.
Qed.

(** How a run that [finished] describes ends. *)
Lemma finished_cases (placemarks : list entry) (document_name : string)
    (out : list event) :
  (forall c, finished placemarks document_name out = Ok c ->
             markers c = map fst placemarks /\ console c = out)
  /\ (forall e, finished placemarks document_name out = Raise e ->
                generate_kml placemarks document_name = Raise e).
Proof.
  unfold finished. destruct (generate_kml placemarks document_name) as [kml|e'].
  - split; [|done]. by intros c [= <-].
  - split; [done|]. by intros e [= <-].
Qed.



End ResolverClaims.

(** ** The coordinate path *)

Section CoordinatePath.
Context `{F : Float} `{X : Expat}.

Lemma elem_of_enumerate {A} (l : list A) :
  forall (start i : nat) (x : A),
  (i, x) ∈ enumerate start l <-> exists k, i = start + k /\ l !! k = Some x.
Proof.
  induction l as [|y l IH]; intros start i x; simpl.
  - split; [by intros ?%elem_of_nil | by intros (k & _ & ?)].
  - rewrite elem_of_cons, IH. split.
    + intros [[= -> ->] | (k & -> & Hk)].
      * exists 0. split; [lia | done].
      * exists (S k). split; [lia | done].
    + intros ([|k] & -> & Hk).
      * left. simpl in Hk. injection Hk as ->. f_equal. lia.
      * right. exists k. split; [lia | done].
Qed.

Lemma float_of_column_present (r : row) (column : string) (v : cell) :
  dict_lookup column r = Some v ->
  float_of_column r column = v ≫= float_of_str.
Proof. unfold float_of_column. intros ->. by destruct v. Qed.

Lemma no_number_bind (v : cell) : no_number v <-> v ≫= float_of_str = None.
Proof. by destruct v. Qed.

Lemma number_bind (v : cell) (x : float) :
  number v x <-> v ≫= float_of_str = Some x.
Proof.
  destruct v as [s|]; simpl; split.
  - by intros (s' & [= <-] & ?).
  - intros Hs. by exists s.
  - by intros (s' & ? & _).
  - done.
Qed.

(** The body of the coordinate loop on a row that has both columns. *)
Lemma coordinate_row_cases (headers : list string) (address_column : string)
    (name_column : cell) (lat_column lon_column : string) (idx : nat) (r : row)
    (vlat vlon : cell) :
  dict_lookup lat_column r = Some vlat ->
  dict_lookup lon_column r = Some vlon ->
  let body := coordinate_row headers address_column name_column
                lat_column lon_column idx r in
  (no_number vlat \/ no_number vlon -> body = None)
  /\ (forall lat lon, number vlat lat -> number vlon lon ->
      exists p, body = Some p /\ coordinates p = (lon, lat)).
Proof.
  intros Hlat Hlon body. subst body. unfold coordinate_row.
  rewrite (float_of_column_present _ _ _ Hlat),
    (float_of_column_present _ _ _ Hlon).
  split.
  - rewrite !no_number_bind. intros [-> | ->]; [done|].
    by destruct (vlat ≫= float_of_str).
  - intros lat lon. rewrite !number_bind. intros -> ->. by eexists.
Qed.

(** C5.  The coordinate path, row by row.  In the run of a file that
    has rows and both coordinate columns the loop over the rows returns:
    its entries are, in order, what the loop body yields for the rows
    numbered from one, and the run ends as [generate_kml] does on these
    entries, so that it returns with them as markers, or leaves with the
    exception that [generate_kml] raises on them.  For a row that has
    both columns: if the latitude or the longitude cell is missing or is
    no number, the body yields nothing, so the row gives no entry, and
    the loop prints the line [Skipping row i: Invalid coordinates] with
    the index of the row; if both cells are numbers, the row yields a
    marker whose coordinates are the longitude and the latitude as
    parsed, whatever their sign or size, and whose coordinates element
    prints them. *)
Theorem coordinate_rows_skipped_or_verbatim
    (available : bool) (g : geocoder) (o : set_order)
    (data : list csv_row) (headers : list string) (document_name : string)
    (address_column : string) (name_column : cell)
    (lat_column lon_column : string) :
  data <> [] -> truthy_str lat_column = true -> truthy_str lon_column = true ->
  lat_column ∈ headers -> lon_column ∈ headers ->
  let body := coordinate_row headers address_column name_column
                lat_column lon_column in
  let run :=
    convert_csv_to_kml available g o data headers document_name
      address_column name_column true (Some lat_column) (Some lon_column) in
  exists placemarks out,
    coordinate_rows headers address_column name_column lat_column lon_column
      1 data []
      [Print ("Found " +:+ str_of_nat (length data) +:+ " rows in CSV");
       Print "Using latitude and longitude columns from CSV"]
    = (placemarks, out)
    /\ (forall c, run = Ok c ->
                  markers c = map fst placemarks
                  /\ exists summary, console c = out ++ summary)
    /\ (forall e, run = Raise e -> generate_kml placemarks document_name = Raise e)
    /\ (forall e, generate_kml placemarks document_name = Raise e -> run = Raise e)
    /\ placemarks
       = omap (fun '(i, r) => entry_of r <$> body i (fields r)) (enumerate 1 data)
    /\ forall k (r : csv_row) vlat vlon,
        data !! k = Some r ->
        dict_lookup lat_column r = Some vlat ->
        dict_lookup lon_column r = Some vlon ->
        (no_number vlat \/ no_number vlon ->
         body (S k) r = None /\ skipping (S k) ∈ out)
        /\ (forall lat lon, number vlat lat -> number vlon lon ->
            exists p, body (S k) r = Some p
                      /\ entry_of r p ∈ placemarks
                      /\ coordinates p = (lon, lat)
                      /\ ET.Element "Point" [] None
                           [ET.Element "coordinates" []
                              (Some (float_str lon +:+ "," +:+ float_str lat
                                     +:+ ",0")) []]
                         ∈ ET.children (placemark_element p)).
Proof.
  intros Hdata Hlat Hlon Hlat_in Hlon_in body run.
  pose proof (convert_coordinate_path available g o data headers document_name
                address_column name_column lat_column lon_column
                Hdata Hlat Hlon Hlat_in Hlon_in) as Hrun.
  cbv zeta in Hrun. fold body run in Hrun.
  eexists _, _. split; [apply coordinate_rows_enumerate|]. rewrite Hrun.
  cbn [app].
  split.
  { intros c Hc. destruct (proj1 (finished_cases _ _ _) c Hc) as [Hm Hcon].
    split; [done|].
    exists [Print ("Generating KML with "
                   +:+ str_of_nat
                         (length (omap (fun '(i, r) =>
                                          entry_of r <$> body i (fields r))
                                    (enumerate 1 data)))
                   +:+ " placemarks...")].
    rewrite Hcon. by cbn [app]. }
  split; [apply finished_cases|].
  split.
  { intros e He. unfold finished. unfold body. by rewrite He. }
  split; [done|].
  intros k r vlat vlon Hk Hvlat Hvlon.
  assert ((S k, r) ∈ enumerate 1 data) as Hin.
  { apply elem_of_enumerate. by exists k. }
  destruct (coordinate_row_cases headers address_column name_column
              lat_column lon_column (S k) r vlat vlon Hvlat Hvlon)
    as [Hbad Hgood].
  split.
  - intros Hno. specialize (Hbad Hno). split; [done|].
    do 2 apply list_elem_of_further.
    apply list_elem_of_omap. exists (S k, r). split; [done|].
    cbv beta. by rewrite Hbad.
  - intros lat lon Hnlat Hnlon.
    destruct (Hgood lat lon Hnlat Hnlon) as (p & Hp & Hc).
    exists p. split; [done|]. split.
    + apply list_elem_of_omap. exists (S k, r). split; [done|].
      cbv beta. by rewrite Hp.
    + split; [done|]. unfold placemark_element. cbn [ET.children].
      rewrite Hc. rewrite !elem_of_app. do 4 right. apply list_elem_of_here.
Qed.

End CoordinatePath.

(** ** Markers and their serialization *)

Section Markers.
Context `{F : Float} `{X : Expat}.

Lemma elem_of_extended_data_of (excluded_cols : gset string) (r : row)
    (k : string) (v : cell) :
  (k, v) ∈ extended_data_of excluded_cols r
  <-> (k, v) ∈ r /\ (k ∉ excluded_cols) /\ truthy v = true.
Proof.
  unfold extended_data_of.
  rewrite !list_elem_of_In, filter_In, andb_true_iff, bool_decide_eq_true.
  tauto.
Qed.

Lemma coordinate_row_extended_data (headers : list string)
    (address_column : string) (name_column : cell)
    (lat_column lon_column : string) (idx : nat) (r : row) (p : placemark) :
  coordinate_row headers address_column name_column lat_column lon_column idx r
  = Some p ->
  exists excluded_cols : gset string,
    extended_data p = extended_data_of excluded_cols r
    /\ forall k, k ∈ headers ->
         (k ∈ excluded_cols
          <-> k = lat_column \/ k = lon_column \/ k = address_column
              \/ k = name_source headers address_column name_column).
Proof.
  unfold coordinate_row.
  destruct (float_of_column r lat_column) as [lat|]; [|done].
  destruct (float_of_column r lon_column) as [lon|]; [|done].
  intros [= <-]. eexists. split; [done|]. intros k Hk. unfold name_source.
  destruct (truthy name_column) eqn:Hn;
    destruct (in_list address_column headers) eqn:Ha;
    destruct (in_list (str name_column) headers) eqn:Hs; cbn [andb];
    try apply in_list_false in Ha; try apply in_list_false in Hs;
    rewrite ?elem_of_union, ?elem_of_singleton;
    (split; intros; intuition (subst; try tauto)).
Qed.

Lemma geocoded_row_extended_data (headers : list string) (address_col : string)
    (name_column : cell) (results : geocode_cache) (r : row) (p : placemark) :
  geocoded_row headers address_col name_column results r = Some p ->
  exists excluded_cols : gset string,
    extended_data p = extended_data_of excluded_cols r
    /\ forall k, k ∈ headers ->
         (k ∈ excluded_cols
          <-> k = address_col
              \/ k = name_source headers address_col name_column).
Proof.
  unfold geocoded_row.
  destruct (geocoded_get results _) as [c|]; [|done].
  intros [= <-]. eexists. split; [done|]. intros k Hk. unfold name_source.
  destruct (truthy name_column) eqn:Hn;
    destruct (in_list (str name_column) headers) eqn:Hs; cbn [andb];
    try apply in_list_false in Hs;
    rewrite ?elem_of_union, ?elem_of_singleton;
    (split; intros; intuition (subst; try tauto)).
Qed.

Lemma serialized_extended_data (d : dict cell) :
  map (fun data =>
         (get (ET.attrib data) "name" "",
          match ET.children data with
          | value :: _ => default "" (ET.text value)
          | [] => ""
          end)) (ET.children (extended_data_element d))
  = map (fun '(k, v) => (k, str v)) d.
Proof.
  unfold extended_data_element. cbn [ET.children]. rewrite map_map.
  apply map_ext. by intros [k v].
Qed.

Lemma serialized_attributes_placemark (p : placemark) :
  serialized_attributes (placemark_element p)
  = map (fun '(k, v) => (k, str v)) (extended_data p).
Proof.
  unfold serialized_attributes, placemark_element, ET.findall.
  cbn [ET.children].
  destruct (truthy (description p));
    (destruct (extended_data p) as [|kv d] eqn:Hd; [done|]);
    cbn -[extended_data_element];
    change (ET.tag (extended_data_element (kv :: d))) with "ExtendedData";
    cbn -[extended_data_element]; rewrite app_nil_r;
    apply (serialized_extended_data (kv :: d)).
Qed.


(** Where the markers of a run come from: each is what one of the two
    loop bodies yields for a row of the file. *)
Lemma convert_markers_produced (available : bool) (g : geocoder) (o : set_order)
    (data : list csv_row) (headers : list string) (document_name : string)
    (address_column : string) (name_column : cell)
    (skip_geocoding : bool) (lat_column lon_column : cell) (c : conversion) :
  convert_csv_to_kml available g o data headers document_name
    address_column name_column skip_geocoding lat_column lon_column = Ok c ->
  forall p, p ∈ markers c ->
  exists r : csv_row, r ∈ data
    /\ ((exists idx,
           coordinate_row headers address_column name_column
             (str lat_column) (str lon_column) idx r = Some p)
        \/ (exists address_col results,
              find_address_column headers address_column = Ok address_col
              /\ geocoded_row headers address_col name_column results r = Some p)).
Proof.
  unfold convert_csv_to_kml.
  destruct (Nat.eqb (length data) 0); [done|].
  destruct (skip_geocoding && truthy lat_column && truthy lon_column).
  - destruct (negb (in_list (str lat_column) headers)); [done|].
    destruct (negb (in_list (str lon_column) headers)); [done|].
    rewrite coordinate_rows_enumerate.
    destruct (generate_kml _ _) as [kml|]; [|done].
    intros [= <-] p Hp. cbn [markers app] in Hp.
    rewrite (coordinate_entries_placemarks
               (coordinate_row headers address_column name_column
                  (str lat_column) (str lon_column))) in Hp.
    apply list_elem_of_omap in Hp as ([i r] & Hin & Hbody).
    apply elem_of_enumerate in Hin as (k & _ & Hk).
    exists r. split; [by eapply list_elem_of_lookup_2|]. left. by exists i.
  - destruct (find_address_column headers address_column) as [col|]; [|done].
    unfold batch_geocode. destruct available; [|done]. cbn [negb].
    destruct (batch_geocode_loop _ _ _ _ _ _ _) as [[results cache] out1].
    rewrite geocoded_rows_omap.
    destruct (generate_kml _ _) as [kml|]; [|done].
    intros [= <-] p Hp. cbn [markers app] in Hp.
    rewrite (geocoded_entries_placemarks
               (geocoded_row headers col name_column results)) in Hp.
    apply list_elem_of_omap in Hp as (r & Hin & Hbody).
    exists r. split; [done|]. right. by exists col, results.
Qed.

(** C7.  The attributes of a marker.  Every marker of a run is yielded
    by the body of the coordinate loop or of the address loop for a row
    of the file.  For a row whose keys are columns of the header, the
    attributes of the marker are the pairs of the row whose value is
    truthy and whose key is none of the columns consumed: latitude,
    longitude, address and name on the coordinate path, address and name
    on the address path.  The [ExtendedData] block of the marker's
    element holds these pairs and no other. *)
Theorem attributes_exclude_consumed_columns :
  (forall available (g : geocoder) o data headers document_name address_column
          name_column skip_geocoding lat_column lon_column c,
      convert_csv_to_kml available g o data headers document_name
        address_column name_column skip_geocoding lat_column lon_column = Ok c ->
      forall p, p ∈ markers c ->
      exists r : csv_row, r ∈ data
        /\ ((exists idx,
               coordinate_row headers address_column name_column
                 (str lat_column) (str lon_column) idx r = Some p)
            \/ (exists address_col results,
                  find_address_column headers address_column = Ok address_col
                  /\ geocoded_row headers address_col name_column results r
                     = Some p)))
  /\ (forall headers address_column name_column lat_column lon_column idx
             (r : row) p,
         (forall k v, (k, v) ∈ r -> k ∈ headers) ->
         coordinate_row headers address_column name_column
           lat_column lon_column idx r = Some p ->
         forall k v,
           (k, v) ∈ extended_data p
           <-> (k, v) ∈ r /\ truthy v = true
               /\ k <> lat_column /\ k <> lon_column /\ k <> address_column
               /\ k <> name_source headers address_column name_column)
  /\ (forall headers address_col name_column results (r : row) p,
         (forall k v, (k, v) ∈ r -> k ∈ headers) ->
         geocoded_row headers address_col name_column results r = Some p ->
         forall k v,
           (k, v) ∈ extended_data p
           <-> (k, v) ∈ r /\ truthy v = true
               /\ k <> address_col
               /\ k <> name_source headers address_col name_column)
  /\ (forall p : placemark,
         serialized_attributes (placemark_element p)
         = map (fun '(k, v) => (k, str v)) (extended_data p)).
Proof.
  split; [|split; [|split]].
  - intros available g o data headers document_name address_column name_column
      skip_geocoding lat_column lon_column c Hrun p Hp.
    by eapply convert_markers_produced.
  - intros headers address_column name_column lat_column lon_column idx r p
      Hkeys Hbody k v.
    destruct (coordinate_row_extended_data _ _ _ _ _ _ _ _ Hbody)
      as (excluded_cols & -> & Hex).
    rewrite elem_of_extended_data_of. split.
    + intros (Hin & Hk & Hv). specialize (Hex k (Hkeys k v Hin)).
      repeat (split; [done|]). repeat split; intros ->; apply Hk, Hex; auto.
    + intros (Hin & Hv & H1 & H2 & H3 & H4).
      specialize (Hex k (Hkeys k v Hin)).
      repeat (split; [done|]). split; [|done]. rewrite Hex. tauto.
  - intros headers address_col name_column results r p Hkeys Hbody k v.
    destruct (geocoded_row_extended_data _ _ _ _ _ _ Hbody)
      as (excluded_cols & -> & Hex).
    rewrite elem_of_extended_data_of. split.
    + intros (Hin & Hk & Hv). specialize (Hex k (Hkeys k v Hin)).
      repeat (split; [done|]). split; intros ->; apply Hk, Hex; auto.
    + intros (Hin & Hv & H1 & H2).
      specialize (Hex k (Hkeys k v Hin)).
      repeat (split; [done|]). split; [|done]. rewrite Hex. tauto.
  - apply serialized_attributes_placemark.
Qed.

(** C10.  A marker without a description.  When the description of a
    marker is the empty string (or [None]) its element has exactly the
    children name, styleUrl, the [ExtendedData] block when the marker has
    attributes, and Point: there is no description element, hence no
    table, while the block of the attributes is there and holds every
    attribute. *)
Theorem empty_description_omits_table (p : placemark) :
  truthy (description p) = false ->
  ET.children (placemark_element p)
  = [ET.Element "name" [] (Some (str (name p))) [];
     ET.Element "styleUrl" [] (Some "#defaultStyle") []]
    ++ (if negb (Nat.eqb (length (extended_data p)) 0)
        then [extended_data_element (extended_data p)] else [])
    ++ [ET.Element "Point" [] None
          [ET.Element "coordinates" []
             (Some (let '(lon, lat) := coordinates p in
                    float_str lon +:+ "," +:+ float_str lat +:+ ",0")) []]]
  /\ ET.findall "description" (placemark_element p) = []
  /\ (extended_data p <> [] ->
      ET.findall "ExtendedData" (placemark_element p)
      = [extended_data_element (extended_data p)])
  /\ serialized_attributes (placemark_element p)
     = map (fun '(k, v) => (k, str v)) (extended_data p).
Proof.
  intros Hdesc. split; [|split; [|split]].
  - unfold placemark_element. cbn [ET.children]. by rewrite Hdesc.
  - unfold ET.findall, placemark_element. cbn [ET.children]. rewrite Hdesc.
    by destruct (extended_data p).
  - intros Hd. unfold ET.findall, placemark_element. cbn [ET.children].
    rewrite Hdesc. by destruct (extended_data p).
  - apply serialized_attributes_placemark.
Qed.

End Markers.

(** ** The serialized description *)

Section Serializer.

Lemma contains_lt_cons (d : ascii) (t : string) :
  contains "<" (String d t) = Ascii.eqb "<" d || contains "<" t.
Proof.
  rewrite contains_unfold. f_equal.
  change (String.prefix "<" (String d t))
    with (if Ascii.ascii_dec "<" d then String.prefix "" t else false).
  destruct (Ascii.ascii_dec "<" d) as [<-|Hne].
  - by destruct t.
  - symmetry. by apply Ascii.eqb_neq.
Qed.

Lemma contains_lt_app (s t : string) :
  contains "<" (s +:+ t) = contains "<" s || contains "<" t.
Proof.
  induction s as [|c s IH]; [done|].
  by rewrite append_cons, !contains_lt_cons, IH, orb_assoc.
Qed.

(** Text written by the serializer holds no markup: every [<] of the
    element text leaves as [&lt;]. *)
Lemma escape_cdata_no_markup (s : string) :
  contains "<" (ET.escape_cdata s) = false.
Proof.
  induction s as [|c s IH]; [done|]. simpl ET.escape_cdata.
  rewrite contains_lt_app, IH, orb_false_r. unfold ET.escape_cdata_char.
  destruct (Ascii.eqb c "&"); [done|].
  destruct (Ascii.eqb c "<") eqn:Hlt; [done|].
  destruct (Ascii.eqb c ">"); [done|].
  rewrite contains_lt_cons, Ascii.eqb_sym, Hlt. done.
Qed.

(** C6.  The table of a marker with a description and one attribute.
    The text the program stores in the description element opens the
    table with a literal-block marker, and the serialized document holds
    that marker and the table with every [<] and [>] escaped: it has no
    literal block and no raw table markup. *)
Theorem cdata_marker_is_escaped :
  let doc := @rough_string Sample.whole_numbers [Sample.described] "doc" in
  contains "<![CDATA[<table border='1'>"
    (@description_text Sample.whole_numbers Sample.described) = true
  /\ contains "&lt;![CDATA[&lt;table border='1'&gt;" doc = true
  /\ contains "&lt;tr&gt;&lt;td&gt;&lt;b&gt;k&lt;/b&gt;" doc = true
  /\ contains "<![CDATA[" doc = false
  /\ contains "<table" doc = false.
Proof. vm_compute. done. Qed.

End Serializer.

(** * The properties on the sample data *)

Lemma returns_ok {A} (r : result A) : returns r = true -> exists a, r = Ok a.
Proof. destruct r as [a|e]; [by exists a | done]. Qed.

Lemma sample_address_run_ends : exists c, Sample.address_run = Ok c.
Proof. apply returns_ok. vm_compute. reflexivity. Qed.

Lemma sample_coordinate_run_ends : exists c, Sample.coordinate_run = Ok c.
Proof. apply returns_ok. vm_compute. reflexivity. Qed.


Lemma nowhere_not_blank : strip "Nowhere" <> "".
Proof. vm_compute. discriminate. Qed.



(** The sample file names one address twice: it is looked up once. *)
Lemma lookup_at_most_once_per_address_witness :
  exists c, Sample.address_run = Ok c
            /\ lookups_of "1 Main St, City" (console c) <= 1.
Proof.
  destruct sample_address_run_ends as [c Hrun]. exists c. split; [exact Hrun|].
  destruct (@lookup_at_most_once_per_address Sample.whole_numbers Sample.expat)
    as (_ & _ & _ & Hconvert).
  exact (Hconvert _ _ _ _ _ _ _ _ _ _ _ c Hrun "1 Main St, City").
Defined.

(** The sample run is paced, and a cache miss starts with the sleep. *)
Lemma sleep_before_every_lookup_witness :
  (exists c, Sample.address_run = Ok c /\ paced default_delay (console c))
  /\ exists diag,
      (@geocode_address Sample.whole_numbers Sample.provider "Nowhere" ∅
         default_delay []).2
      = [] ++ [Sleep default_delay; Lookup "Nowhere"] ++ diag
      /\ Forall is_print diag.
Proof.
  destruct (@sleep_before_every_lookup Sample.whole_numbers Sample.expat)
    as (_ & Hmiss & _ & Hconvert & _).
  split.
  - destruct sample_address_run_ends as [c Hrun]. exists c. split; [exact Hrun|].
    exact (Hconvert _ _ _ _ _ _ _ _ _ _ _ c Hrun).
  - apply (Hmiss Sample.provider "Nowhere" ∅ default_delay []);
      [exact nowhere_not_blank | apply lookup_empty | reflexivity].
Defined.

(** The row of the sample whose address is three spaces. *)
Lemma blank_addresses_never_submitted_witness :
  @geocode_address Sample.whole_numbers Sample.provider "   " ∅
    default_delay [] = (None, ∅, [])
  /\ exists c, Sample.address_run = Ok c /\ lookups_of "   " (console c) = 0.
Proof.
  destruct (@blank_addresses_never_submitted Sample.whole_numbers Sample.expat)
    as (_ & Hcall & _ & Hconvert).
  split.
  - apply Hcall. reflexivity.
  - destruct sample_address_run_ends as [c Hrun]. exists c. split; [exact Hrun|].
    apply (Hconvert _ _ _ _ _ _ _ _ _ _ _ c Hrun "   "). reflexivity.
Defined.

(** A string of white space is not left out up front: it is in the list
    handed to [batch_geocode], which reports progress on it. *)
Lemma whitespace_address_reaches_resolver :
  whitespace_only "   "
  /\ "   " ∈ list_of_set listed (filter_none [Some "   "])
  /\ "   " ∈ list_of_set listed
               (filter_none (map (fun r : csv_row => get r "Address" (Some ""))
                               Sample.address_rows))
  /\ match Sample.address_run with
     | Ok c => Print "Geocoding 3/3 (100.0%):    ..." ∈ console c
     | Raise _ => False
     end.
Proof.
  split; [reflexivity|]. split; [vm_compute; apply list_elem_of_here|].
  split; [vm_compute; do 2 apply list_elem_of_further; apply list_elem_of_here|].
  vm_compute. do 10 apply list_elem_of_further. apply list_elem_of_here.
Qed.

(** The second row of the sample has no number as latitude, the first
    row has two numbers. *)
Lemma coordinate_rows_skipped_or_verbatim_witness :
  exists c,
    Sample.coordinate_run = Ok c
    /\ skipping 2 ∈ console c
    /\ exists p, p ∈ markers c /\ coordinates p = (20%Z, 10%Z).
Proof.
  destruct (@coordinate_rows_skipped_or_verbatim Sample.whole_numbers
              Sample.expat
              false Sample.provider listed Sample.coordinate_rows_data
              ["Lat"; "Lon"; "Name"; "Note"] "data" "Address" (Some "Name")
              "Lat" "Lon")
    as (placemarks & out & _ & Hok & _ & _ & _ & Hrows);
    [discriminate | reflexivity | reflexivity
     | apply list_elem_of_here
     | apply list_elem_of_further, list_elem_of_here |].
  destruct sample_coordinate_run_ends as [c Hrun].
  destruct (Hok c Hrun) as [Hmarkers [summary Hconsole]].
  exists c. split; [exact Hrun|]. rewrite Hmarkers, Hconsole. split.
  - destruct (Hrows 1 _ (Some "bad") (Some "20.0") eq_refl eq_refl eq_refl)
      as [Hbad _].
    apply elem_of_app. left. apply Hbad. left. reflexivity.
  - destruct (Hrows 0 _ (Some "10.0") (Some "20.0") eq_refl eq_refl eq_refl)
      as [_ Hgood].
    destruct (Hgood 10%Z 20%Z) as (p & _ & Hin & Hc & _).
    + exists "10.0". split; reflexivity.
    + exists "20.0". split; reflexivity.
    + exists p. split; [|exact Hc].
      apply list_elem_of_fmap. eexists. split; [|exact Hin]. reflexivity.
Defined.

(** The first row of the coordinate sample keeps its note and nothing
    else. *)
Lemma attributes_exclude_consumed_columns_witness :
  exists p,
    @coordinate_row Sample.whole_numbers ["Lat"; "Lon"; "Name"; "Note"]
      "Address" (Some "Name") "Lat" "Lon" 1
      [("Lat", Some "10.0"); ("Lon", Some "20.0"); ("Name", Some "X");
       ("Note", Some "n1")] = Some p
    /\ ("Note", Some "n1") ∈ extended_data p
    /\ ~ ("Name", Some "X") ∈ extended_data p.
Proof.
  set (hs := ["Lat"; "Lon"; "Name"; "Note"]).
  set (r := [("Lat", Some "10.0"); ("Lon", Some "20.0"); ("Name", Some "X");
             ("Note", Some "n1")]).
  destruct (coordinate_row_cases (F := Sample.whole_numbers) hs "Address"
              (Some "Name") "Lat" "Lon" 1 r (Some "10.0") (Some "20.0")
              eq_refl eq_refl) as [_ Hgood].
  destruct (Hgood 10%Z 20%Z) as (p & Hbody & _).
  { exists "10.0". split; reflexivity. }
  { exists "20.0". split; reflexivity. }
  exists p. split; [exact Hbody|].
  destruct (@attributes_exclude_consumed_columns Sample.whole_numbers
              Sample.expat)
    as (_ & Hcoord & _).
  assert (forall k v, (k, v) ∈ r -> k ∈ hs) as Hkeys.
  { intros k v Hin. subst r hs.
    repeat (apply elem_of_cons in Hin as [[= -> ->]|Hin];
            [repeat ((by apply list_elem_of_here) || apply list_elem_of_further)|]).
    by apply elem_of_nil in Hin. }
  pose proof (Hcoord hs "Address" (Some "Name") "Lat" "Lon" 1 r p Hkeys Hbody)
    as Hattr.
  split.
  - apply (proj2 (Hattr "Note" (Some "n1"))).
    split; [do 3 apply list_elem_of_further; apply list_elem_of_here|].
    repeat split; discriminate.
  - intros Hin.
    apply (proj1 (Hattr "Name" (Some "X"))) in Hin as (_ & _ & _ & _ & _ & Hname).
    apply Hname. reflexivity.
Defined.

(** The three ways of resolving the address column. *)
Lemma find_address_column_resolution_witness :
  find_address_column ["Name"; "Address"] "Address" = Ok "Address"
  /\ find_address_column ["Name"; "Street ADDRESS"; "Address2"] "Address"
     = Ok "Street ADDRESS"
  /\ find_address_column ["Name"; "Street"] "Address"
     = Raise (ValueError
                "Column 'Address' not found in CSV. Available columns: Name, Street").
Proof.
  split; [|split].
  - apply (@find_address_column_resolution Sample.whole_numbers Sample.expat).
    apply list_elem_of_further, list_elem_of_here.
  - apply (proj1 (proj2 (@find_address_column_resolution Sample.whole_numbers
                           Sample.expat
                           ["Name"; "Street ADDRESS"; "Address2"] "Address")))
      with (pre := ["Name"]) (post := ["Address2"]).
    + apply in_list_false. reflexivity.
    + reflexivity.
    + intros c Hc Hn. apply list_elem_of_singleton in Hc as ->.
      apply names_address_contains in Hn. by vm_compute in Hn.
    + apply names_address_contains. reflexivity.
  - apply (proj2 (proj2 (@find_address_column_resolution Sample.whole_numbers
                           Sample.expat
                           ["Name"; "Street"] "Address"))).
    + apply in_list_false. reflexivity.
    + intros c Hc Hn. apply names_address_contains in Hn.
      repeat (apply elem_of_cons in Hc as [->|Hc]; [by vm_compute in Hn|]).
      by apply elem_of_nil in Hc.
Defined.

(** The sample marker without a description has no description element
    and keeps its block of attributes. *)
Lemma empty_description_omits_table_witness :
  ET.findall "description" (@placemark_element Sample.whole_numbers Sample.undescribed)
  = []
  /\ serialized_attributes
       (@placemark_element Sample.whole_numbers Sample.undescribed)
     = [("k", "v")].
Proof.
  destruct (@empty_description_omits_table Sample.whole_numbers
              Sample.undescribed eq_refl) as (_ & Hnone & _ & Hattr).
  split; [exact Hnone | exact Hattr].
Defined.

(** * Further properties of the code *)

(** ** [find_address_column] *)

Section FindAddressColumn.

Lemma filter_head_elem {A} (p : A -> bool) (l : list A) (x : A) (rest : list A) :
  List.filter p l = x :: rest -> x ∈ l /\ p x = true.
Proof.
  intros Hf. assert (In x (List.filter p l)) as Hin by (rewrite Hf; by left).
  apply filter_In in Hin as [Hin Hp]. split; [by apply list_elem_of_In | done].
Qed.

(** X1.  The column that [find_address_column] returns is a column of
    the header: the configured name, or a header that contains the word
    address.  Asking again for the returned column gives it back.  The
    function raises exactly when the configured name is no header and no
    header contains the word. *)
Theorem find_address_column_in_headers (headers : list string)
    (column_name : string) :
  (forall col,
      find_address_column headers column_name = Ok col ->
      col ∈ headers
      /\ (col = column_name \/ names_address col)
      /\ find_address_column headers col = Ok col)
  /\ ((exists e, find_address_column headers column_name = Raise e)
      <-> (column_name ∉ headers)
          /\ forall c, c ∈ headers -> ~ names_address c).
Proof.
  unfold find_address_column. split.
  - intros col. destruct (in_list column_name headers) eqn:Hin.
    + intros [= <-]. apply in_list_elem_of in Hin. split; [done|].
      split; [by left|]. by rewrite (proj2 (in_list_elem_of _ _) Hin).
    + destruct (List.filter _ headers) as [|first rest] eqn:Hf; [done|].
      intros [= <-]. apply filter_head_elem in Hf as [Hel Hp].
      split; [done|]. split; [right; by apply names_address_contains|].
      by rewrite (proj2 (in_list_elem_of _ _) Hel).
  - destruct (in_list column_name headers) eqn:Hin.
    + apply in_list_elem_of in Hin. split; [by intros [e ?] | by intros [? _]].
    + apply in_list_false in Hin.
      destruct (List.filter _ headers) as [|first rest] eqn:Hf.
      * split; [|by eexists]. intros _. split; [done|].
        intros c Hc Hn. apply names_address_contains in Hn.
        assert (In c (List.filter (fun col => contains "address" (lower col))
                        headers)) as Hcf.
        { apply filter_In. split; [by apply list_elem_of_In | done]. }
        by rewrite Hf in Hcf.
      * apply filter_head_elem in Hf as [Hel Hp].
        split; [by intros [e ?]|]. intros [_ Hnone].
        destruct (Hnone first Hel). by apply names_address_contains.
Qed.

End FindAddressColumn.

(** ** [geocode_address] and [batch_geocode] *)

Section ResolverMore.
Context `{F : Float} `{X : Expat}.

(** X2.  The cache is never overwritten and a repeated call does
    nothing.  After a call for an address, every entry the cache had is
    still there with its value, and a second call for the same address,
    with whatever provider and delay, returns the result of the first
    call and leaves the cache and the events as they are: a failure is
    not retried. *)
Theorem geocode_address_repeat (g g' : geocoder) (a : string)
    (cache : geocode_cache) (d d' : Q) (out : list event) :
  let '(r, cache1, out1) := geocode_address g a cache d out in
  (forall b v, cache !! b = Some v -> cache1 !! b = Some v)
  /\ geocode_address g' a cache1 d' out1 = (r, cache1, out1).
Proof.
  destruct (decide (strip a = "")) as [Hs|Hs].
  { rewrite geocode_address_blank by done. split; [done|].
    by apply geocode_address_blank. }
  destruct (cache !! a) as [v|] eqn:Hv.
  { rewrite (geocode_address_hit g a cache d out v) by done. split; [done|].
    by apply geocode_address_hit. }
  pose proof (geocode_address_cases g a cache d out) as Hc.
  destruct (geocode_address g a cache d out) as [[r cache1] out1].
  destruct Hc as [(_ & _ & [? | (v & ? & _)]) | (_ & _ & -> & _)];
    [done | congruence |].
  split.
  - intros b w Hb. rewrite lookup_insert_ne; [done|]. congruence.
  - apply geocode_address_hit; [done|]. by rewrite lookup_insert_eq.
Qed.


(** A call that misses the cache, for an address that is not blank and
    a delay that [time.sleep] accepts. *)
Lemma geocode_address_miss (g : geocoder) (a : string)
    (cache : geocode_cache) (d : Q) (out : list event) :
  strip a <> "" -> cache !! a = None -> Qle_bool 0 d = true ->
  exists r diag,
    geocode_address g a cache d out
    = (r, <[a := r]> cache, out ++ [Sleep d; Lookup a] ++ diag)
    /\ Forall is_print diag.
Proof.
  intros Hs Hmiss Hd. unfold geocode_address.
  rewrite not_blank_test, Hmiss, Hd by done. cbv zeta.
  destruct (g _ a); rewrite <- !(assoc_L (++)); cbn [app].
  - by exists (Some (longitude loc, latitude loc)), [].
  - by exists None, [].
  - eexists None, [_]. split; [done|]. repeat constructor. by eexists.
  - eexists None, [_]. split; [done|]. repeat constructor. by eexists.
  - eexists None, [_]. split; [done|]. repeat constructor. by eexists.
Qed.

(** The loop of [batch_geocode] looks up, exactly once, each listed
    address that is not blank and not yet cached, and no other. *)
Lemma batch_geocode_loop_lookups (g : geocoder) (total : nat)
    (addresses : list string) :
  forall (idx : nat) (cache results : geocode_cache) (out : list event),
  exists new,
    (batch_geocode_loop g total idx addresses cache results out).2 = out ++ new
    /\ forall a,
        (a ∈ addresses -> strip a <> "" -> cache !! a = None ->
         lookups_of a new = 1)
        /\ (a ∉ addresses \/ strip a = "" \/ is_Some (cache !! a) ->
            lookups_of a new = 0).
Proof.
  induction addresses as [|x rest IH]; intros idx cache results out.
  { exists []. simpl. rewrite app_nil_r. split; [done|]. intros a. split.
    - by intros ?%elem_of_nil.
    - done. }
  cbn [batch_geocode_loop].
  set (progress := Print _).
  assert (lookups_of_progress : forall a, lookups_of a [progress] = 0) by done.
  destruct (decide (strip x = "")) as [Hs|Hs];
    [|destruct (cache !! x) as [v|] eqn:Hx].
  - rewrite geocode_address_blank by done.
    destruct (IH (S idx) cache (<[x := None]> results) (out ++ [progress]))
      as (new & Hout & Hcount).
    exists ([progress] ++ new). split; [by rewrite Hout, (assoc_L (++))|].
    intros a. rewrite lookups_of_app, lookups_of_progress.
    destruct (Hcount a) as [Hone Hzero]. split.
    + intros [-> | Ha]%elem_of_cons Hna Hca; [done | by apply Hone].
    + intros [Hn | [Hb | Hc]]; apply Hzero; auto.
      left. by apply not_elem_of_cons in Hn as [_ ?].
  - rewrite (geocode_address_hit g x cache _ _ v) by done.
    destruct (IH (S idx) cache (<[x := v]> results) (out ++ [progress]))
      as (new & Hout & Hcount).
    exists ([progress] ++ new). split; [by rewrite Hout, (assoc_L (++))|].
    intros a. rewrite lookups_of_app, lookups_of_progress.
    destruct (Hcount a) as [Hone Hzero]. split.
    + intros [-> | Ha]%elem_of_cons Hna Hca; [congruence | by apply Hone].
    + intros [Hn | [Hb | Hc]]; apply Hzero; auto.
      left. by apply not_elem_of_cons in Hn as [_ ?].
  - destruct (geocode_address_miss g x cache default_delay (out ++ [progress])
                Hs Hx eq_refl) as (r & diag & -> & Hdiag).
    destruct (IH (S idx) (<[x := r]> cache) (<[x := r]> results)
                ((out ++ [progress]) ++ [Sleep default_delay; Lookup x] ++ diag))
      as (new & Hout & Hcount).
    exists ([progress] ++ [Sleep default_delay] ++ [Lookup x] ++ diag ++ new).
    split; [rewrite Hout; by rewrite <- !(assoc_L (++))|].
    intros a. rewrite !lookups_of_app, lookups_of_progress,
      (lookups_of_prints a diag Hdiag), lookups_of_lookup.
    change (lookups_of a [Sleep default_delay]) with 0.
    destruct (Hcount a) as [Hone Hzero]. case_decide as Hxa.
    + subst a. rewrite Hzero by (right; right; by rewrite lookup_insert_eq).
      split; [done|]. intros [Hn | [Hb | [w Hc]]]; [|done|congruence].
      destruct Hn. apply list_elem_of_here.
    + split.
      * intros [-> | Ha]%elem_of_cons Hna Hca; [done|]. simpl. apply Hone; [done..|].
        by rewrite lookup_insert_ne.
      * intros [Hn | [Hb | Hc]]; simpl; apply Hzero; auto.
        -- left. by apply not_elem_of_cons in Hn as [_ ?].
        -- right. right. by rewrite lookup_insert_ne.
Qed.

Lemma geocode_address_resolved (g : geocoder) (a : string)
    (cache : geocode_cache) (d : Q) (out : list event) :
  resolved g cache ->
  let '(r, cache', _) := geocode_address g a cache d out in
  resolved g cache'
  /\ (forall c, r = Some c -> strip a <> "" /\ answered g a c)
  /\ (strip a = "" -> r = None).
Proof.
  intros Hcache.
  destruct (decide (strip a = "")) as [Hs|Hs].
  { rewrite geocode_address_blank by done. split; [done|]. by split. }
  pose proof (geocode_address_answered g a cache d out) as Hans.
  assert (all_answered g cache) as Hall by (intros b c Hb; by apply Hcache).
  specialize (Hans Hall).
  pose proof (geocode_address_cases g a cache d out) as Hc.
  destruct (geocode_address g a cache d out) as [[r cache1] out1].
  destruct Hans as [_ Hr].
  assert (forall c, r = Some c -> strip a <> "" /\ answered g a c) as Hr'.
  { intros c Hc'. split; [done | by apply Hr]. }
  split; [|by split].
  destruct Hc as [(-> & _) | (_ & _ & -> & _)]; [done|].
  intros b c. rewrite lookup_insert. case_decide as Hab.
  - intros [= ->]. subst b. by apply Hr'.
  - apply Hcache.
Qed.

(** The mapping built by the loop of [batch_geocode]. *)
Lemma batch_geocode_loop_results (g : geocoder) (total : nat)
    (addresses : list string) :
  forall (idx : nat) (cache results : geocode_cache) (out : list event),
  resolved g cache -> resolved g results ->
  let results' := (batch_geocode_loop g total idx addresses cache results out).1.1 in
  resolved g results'
  /\ forall a,
      (a ∉ addresses -> results' !! a = results !! a)
      /\ (a ∈ addresses -> is_Some (results' !! a))
      /\ (a ∈ addresses -> strip a = "" -> results' !! a = Some None).
Proof.
  induction addresses as [|x rest IH]; intros idx cache results out Hc Hr.
  { simpl. split; [done|]. intros a.
    split; [done|]. split; by intros ?%elem_of_nil. }
  cbn [batch_geocode_loop].
  set (progress := Print _).
  pose proof (geocode_address_resolved g x cache default_delay
                (out ++ [progress]) Hc) as Hstep.
  destruct (geocode_address g x cache default_delay (out ++ [progress]))
    as [[r cache1] out1].
  destruct Hstep as (Hc1 & Hr1 & Hblank).
  assert (resolved g (<[x := r]> results)) as Hr2.
  { intros b c. rewrite lookup_insert. case_decide as Hab.
    - intros [= ->]. subst b. by apply Hr1.
    - apply Hr. }
  destruct (IH (S idx) cache1 (<[x := r]> results) out1 Hc1 Hr2) as [Hres Hall].
  split; [done|]. intros a. destruct (Hall a) as (Hout & Hin & Hnone).
  split; [|split].
  - intros [Hne Hn]%not_elem_of_cons. rewrite Hout by done.
    by rewrite lookup_insert_ne.
  - intros [-> | Ha]%elem_of_cons; [|by apply Hin].
    destruct (decide (x ∈ rest)); [by apply Hin|].
    rewrite Hout by done. rewrite lookup_insert_eq. by eexists.
  - intros [-> | Ha]%elem_of_cons Hs; [|by apply Hnone].
    destruct (decide (x ∈ rest)); [by apply Hnone|].
    rewrite Hout by done. rewrite lookup_insert_eq. by rewrite Hblank.
Qed.

Lemma resolved_empty (g : geocoder) : resolved g ∅.
Proof. intros a c. by rewrite lookup_empty. Qed.

(** X3.  What [batch_geocode] returns.  Without geopy it raises
    [ImportError], even for an empty list.  Otherwise it returns a
    mapping whose keys are exactly the addresses of the list; a blank
    address is mapped to [None]; every coordinate pair in the mapping
    belongs to an address that is not blank and was found by a lookup of
    that address; and each listed address that is not blank is looked up
    exactly once, duplicates in the list included, while no other string
    is looked up. *)
Theorem batch_geocode_results (available : bool) (g : geocoder)
    (addresses : list string) (out : list event) :
  (available = false ->
   batch_geocode available g addresses out
   = Raise (ImportError
              "geopy is required for geocoding. Install with: pip install geopy"))
  /\ (available = true ->
      exists results new,
        batch_geocode available g addresses out = Ok (results, out ++ new)
        /\ (forall a, is_Some (results !! a) <-> a ∈ addresses)
        /\ (forall a, a ∈ addresses -> strip a = "" -> results !! a = Some None)
        /\ resolved g results
        /\ (forall a, a ∈ addresses -> strip a <> "" -> lookups_of a new = 1)
        /\ (forall a, a ∉ addresses \/ strip a = "" -> lookups_of a new = 0)).
Proof.
  split; intros ->; [done|]. unfold batch_geocode. cbn [negb].
  destruct (batch_geocode_loop_lookups g (length addresses) addresses 1 ∅ ∅ out)
    as (new & Hout & Hcount).
  destruct (batch_geocode_loop_results g (length addresses) addresses 1 ∅ ∅ out
              (resolved_empty g) (resolved_empty g)) as [Hres Hall].
  destruct (batch_geocode_loop _ _ _ _ _ _ _) as [[results cache] out1].
  simpl in Hout, Hres, Hall. subst out1.
  exists results, new. split; [done|]. split; [|split; [|split; [|split]]].
  - intros a. destruct (Hall a) as (Hnot & Hin & _). split; [|done].
    intros Hsome. destruct (decide (a ∈ addresses)) as [|Hn]; [done|].
    rewrite (Hnot Hn), lookup_empty in Hsome. by destruct Hsome.
  - intros a. by destruct (Hall a) as (_ & _ & ?).
  - done.
  - intros a Ha Hs. destruct (Hcount a) as [Hone _]. apply Hone; [done..|].
    apply lookup_empty.
  - intros a Ha. destruct (Hcount a) as [_ Hzero]. apply Hzero. tauto.
Qed.

End ResolverMore.

(** ** Runs of the address path *)

Section AddressRuns.
Context `{F : Float} `{X : Expat}.

(** A run of the address path with what its resolver did. *)
Lemma convert_address_run (g : geocoder) (o : set_order)
    (data : list csv_row) (headers : list string) (document_name : string)
    (address_column : string) (name_column : cell)
    (skip_geocoding : bool) (lat_column lon_column : cell) (address_col : string) :
  data <> [] ->
  skip_geocoding && truthy lat_column && truthy lon_column = false ->
  find_address_column headers address_column = Ok address_col ->
  let unique_addresses :=
    list_of_set o
      (filter_none (map (fun r : csv_row => get r address_col (Some "")) data)) in
  exists results new,
    let body := geocoded_row headers address_col name_column results in
    let placemarks := omap (fun r : csv_row => entry_of r <$> body r) data in
    let out1 :=
      [Print ("Found " +:+ str_of_nat (length data) +:+ " rows in CSV");
       Print "Geocoding addresses...";
       Print ("Geocoding " +:+ str_of_nat (length unique_addresses)
              +:+ " unique addresses...")]
      ++ new in
    convert_csv_to_kml true g o data headers document_name
      address_column name_column skip_geocoding lat_column lon_column
    = finished placemarks document_name
        (out1
         ++ omap (fun r : csv_row =>
                    match body r with
                    | None => Some (could_not_geocode
                                      (get r address_col (Some "")))
                    | Some _ => None
                    end) data
         ++ [Print ("Successfully geocoded "
                    +:+ str_of_nat (length placemarks)
                    +:+ "/" +:+ str_of_nat (length data) +:+ " addresses");
             Print ("Generating KML with "
                    +:+ str_of_nat (length placemarks)
                    +:+ " placemarks...")])
    /\ resolved g results
    /\ traced g out1 results
    /\ forall a,
        (a ∈ unique_addresses -> strip a <> "" -> lookups_of a new = 1)
        /\ (a ∉ unique_addresses \/ strip a = "" -> lookups_of a new = 0).
Proof.
  intros Hdata Hpath Hfind unique_addresses.
  pose proof (convert_address_path g o data headers document_name
                address_column name_column skip_geocoding lat_column
                lon_column address_col Hdata Hpath Hfind) as Hrun.
  cbv zeta in Hrun. fold unique_addresses in Hrun.
  match type of Hrun with context [batch_geocode_loop g ?t 1 ?l ∅ ∅ ?pre] =>
    destruct (batch_geocode_loop_lookups g t l 1 ∅ ∅ pre) as (new & Hout & Hcount);
    destruct (batch_geocode_loop_results g t l 1 ∅ ∅ pre
                (resolved_empty g) (resolved_empty g)) as [Hres _];
    pose proof (batch_geocode_loop_traced g t l 1 ∅ ∅ pre
                  (traced_empty g pre) (traced_empty g pre)) as Htraced;
    destruct (batch_geocode_loop g t 1 l ∅ ∅ pre) as [[results cache] out1]
  end.
  simpl in Hout, Hres. subst out1. exists results, new.
  split; [exact Hrun|]. split; [done|]. split; [done|]. intros a.
  destruct (Hcount a) as [Hone Hzero]. split.
  - intros Ha Hs. apply Hone; [done..|]. apply lookup_empty.
  - intros Ha. apply Hzero. tauto.
Qed.

Lemma elem_of_unique_addresses (o : set_order) (data : list csv_row)
    (address_col a : string) :
  a ∈ list_of_set o
        (filter_none (map (fun r : csv_row => get r address_col (Some "")) data))
  <-> (exists r : csv_row, r ∈ data /\ get r address_col (Some "") = Some a)
      /\ a <> "".
Proof.
  rewrite elem_of_list_of_set, elem_of_filter_none, list_elem_of_fmap.
  split; intros [(r & H1 & H2) Ha]; (split; [exists r|]); done.
Qed.

Lemma not_blank_not_empty (a : string) : strip a <> "" -> a <> "".
Proof. by intros Hs ->. Qed.

(** A run that ends had rows to read. *)
Lemma convert_ok_data (available : bool) (g : geocoder) (o : set_order)
    (data : list csv_row) (headers : list string) (document_name : string)
    (address_column : string) (name_column : cell)
    (skip_geocoding : bool) (lat_column lon_column : cell) (c : conversion) :
  convert_csv_to_kml available g o data headers document_name
    address_column name_column skip_geocoding lat_column lon_column = Ok c ->
  data <> [].
Proof. unfold convert_csv_to_kml. by destruct data. Qed.

(** X4.  The provider calls of a run of the address path.  A run that
    ends has made exactly one call for each distinct address of the
    address column that is not blank, and no call for any other string,
    whatever the provider answered. *)
Theorem each_address_looked_up_once (g : geocoder) (o : set_order)
    (data : list csv_row) (headers : list string) (document_name : string)
    (address_column : string) (name_column : cell)
    (skip_geocoding : bool) (lat_column lon_column : cell) (address_col : string)
    (c : conversion) :
  skip_geocoding && truthy lat_column && truthy lon_column = false ->
  find_address_column headers address_column = Ok address_col ->
  convert_csv_to_kml true g o data headers document_name
    address_column name_column skip_geocoding lat_column lon_column = Ok c ->
  forall a,
    let listed :=
      exists r : csv_row, r ∈ data /\ get r address_col (Some "") = Some a in
    (listed /\ strip a <> "" -> lookups_of a (console c) = 1)
    /\ (~ listed \/ strip a = "" -> lookups_of a (console c) = 0).
Proof.
  intros Hpath Hfind Hc.
  pose proof (convert_ok_data _ _ _ _ _ _ _ _ _ _ _ _ Hc) as Hdata.
  destruct (convert_address_run g o data headers document_name address_column
              name_column skip_geocoding lat_column lon_column address_col
              Hdata Hpath Hfind) as (results & new & Hrun & _ & _ & Hcount).
  cbv zeta in Hrun. rewrite Hrun in Hc.
  apply finished_ok in Hc as [-> _]. intros a listed.
  cbn [console].
  pose proof (could_not_geocode_prints
                (geocoded_row headers address_col name_column results)
                address_col data) as Hwarn.
  rewrite !lookups_of_app, (lookups_of_prints a _ Hwarn),
    !lookups_of_print_cons.
  change (lookups_of a []) with 0. rewrite !Nat.add_0_r, Nat.add_0_l.
  destruct (Hcount a) as [Hone Hzero]. split.
  - intros [Hl Hs]. apply Hone; [|done]. apply elem_of_unique_addresses.
    split; [done | by apply not_blank_not_empty].
  - intros [Hl | Hs]; apply Hzero; [left | by right].
    intros [Hin _]%elem_of_unique_addresses. by apply Hl.
Qed.

(** X5.  The markers of a run of the address path.  In a run that ends,
    each marker comes from a row whose address is not blank; its
    description is that address, so its element has a description child;
    the run called the provider for that address once, after the events
    [history], and the coordinates of the marker are the longitude and
    the latitude of the location that this call returned. *)
Theorem address_markers_carry_provider_coordinates (g : geocoder) (o : set_order)
    (data : list csv_row) (headers : list string) (document_name : string)
    (address_column : string) (name_column : cell)
    (skip_geocoding : bool) (lat_column lon_column : cell) (address_col : string)
    (c : conversion) :
  skip_geocoding && truthy lat_column && truthy lon_column = false ->
  find_address_column headers address_column = Ok address_col ->
  convert_csv_to_kml true g o data headers document_name
    address_column name_column skip_geocoding lat_column lon_column = Ok c ->
  forall p, p ∈ markers c ->
  exists (r : csv_row) a history loc,
    r ∈ data
    /\ get r address_col (Some "") = Some a
    /\ strip a <> ""
    /\ description p = Some a
    /\ lookups_of a (console c) = 1
    /\ call_in (console c) history a
    /\ g history a = Found loc
    /\ coordinates p = (longitude loc, latitude loc)
    /\ ET.findall "description" (placemark_element p)
       = [ET.Element "description" [] (Some (description_text p)) []].
Proof.
  intros Hpath Hfind Hc.
  pose proof (convert_ok_data _ _ _ _ _ _ _ _ _ _ _ _ Hc) as Hdata.
  destruct (convert_address_run g o data headers document_name address_column
              name_column skip_geocoding lat_column lon_column address_col
              Hdata Hpath Hfind) as (results & new & Hrun & Hres & Htraced & Hcount).
  cbv zeta in Hrun. rewrite Hrun in Hc.
  apply finished_ok in Hc as [-> _]. cbn [markers console].
  rewrite (geocoded_entries_placemarks
             (geocoded_row headers address_col name_column results) data).
  intros p Hp. apply list_elem_of_omap in Hp as (r & Hr & Hbody).
  apply geocoded_row_description in Hbody as [Hdesc Hget].
  destruct (description p) as [a|] eqn:Hd; [|done].
  unfold geocoded_get in Hget.
  destruct (results !! a) as [[xy|]|] eqn:Hra; simpl in Hget; [|done|done].
  injection Hget as ->.
  destruct (Hres a _ Hra) as (Hs & _).
  destruct (Htraced a _ Hra) as [[? _]|(history & Hcall & Hxy)]; [done|].
  destruct (g history a) as [loc| | | |] eqn:Hg; try done.
  injection Hxy as Hxy.
  exists r, a, history, loc. repeat (split; [done|]).
  split; [|split; [by apply call_in_app|]; split; [done|]; split; [done|]].
  - pose proof (could_not_geocode_prints
                  (geocoded_row headers address_col name_column results)
                  address_col data) as Hwarn.
    rewrite !lookups_of_app, (lookups_of_prints a _ Hwarn),
      !lookups_of_print_cons.
    change (lookups_of a []) with 0. rewrite !Nat.add_0_r, Nat.add_0_l.
    apply (Hcount a); [|done]. apply elem_of_unique_addresses.
    split; [by exists r | by apply not_blank_not_empty].
  - unfold ET.findall, placemark_element. cbn [ET.children]. rewrite Hd.
    destruct a as [|ch a]; [done|]. cbn [truthy truthy_str].
    by destruct (extended_data p).
Qed.

End AddressRuns.

(** ** Runs in general *)

Section RunsMore.
Context `{F : Float} `{X : Expat}.

(** X6.  The coordinate path needs no provider.  When coordinates are
    taken from the file the result does not depend on whether geopy is
    there, on the provider or on the order of sets, and a run that ends
    has only printed: it has neither slept nor called the provider.  The
    flag alone does not select this path: without both coordinate
    columns the run is the one of the address path. *)
Theorem coordinate_path_never_geocodes
    (available available' : bool) (g g' : geocoder) (o o' : set_order)
    (data : list csv_row) (headers : list string) (document_name : string)
    (address_column : string) (name_column : cell) (lat_column lon_column : cell) :
  (truthy lat_column = true -> truthy lon_column = true ->
   convert_csv_to_kml available g o data headers document_name
     address_column name_column true lat_column lon_column
   = convert_csv_to_kml available' g' o' data headers document_name
       address_column name_column true lat_column lon_column
   /\ forall c,
       convert_csv_to_kml available g o data headers document_name
         address_column name_column true lat_column lon_column = Ok c ->
       Forall is_print (console c))
  /\ (truthy lat_column = false \/ truthy lon_column = false ->
      convert_csv_to_kml available g o data headers document_name
        address_column name_column true lat_column lon_column
      = convert_csv_to_kml available g o data headers document_name
          address_column name_column false lat_column lon_column).
Proof.
  split.
  - intros Hlat Hlon. unfold convert_csv_to_kml. rewrite Hlat, Hlon. cbn [andb].
    split; [done|]. intros c.
    destruct (Nat.eqb (length data) 0); [done|].
    destruct (negb (in_list (str lat_column) headers)); [done|].
    destruct (negb (in_list (str lon_column) headers)); [done|].
    rewrite coordinate_rows_enumerate.
    destruct (generate_kml _ _) as [kml|]; [|done].
    intros [= <-]. cbn [console app].
    do 2 (apply Forall_cons_2; [apply print_is_print|]).
    apply Forall_app_2;
      [apply (skipping_prints
                (fun i (r : csv_row) =>
                   coordinate_row headers address_column name_column
                     (str lat_column) (str lon_column) i r))|].
    apply Forall_cons_2; [apply print_is_print | constructor].
  - intros Hcols. unfold convert_csv_to_kml.
    replace (true && truthy lat_column && truthy lon_column) with false; [done|].
    destruct Hcols as [-> | ->]; [done|]. by rewrite andb_false_r.
Qed.







(** Every row gives a placemark or a line. *)
Lemma row_accounted {A} (body : A -> option placemark) (line : A -> event)
    (l : list A) (x : A) :
  x ∈ l ->
  (exists p, body x = Some p /\ p ∈ omap body l)
  \/ (body x = None
      /\ line x ∈ omap (fun x => match body x with
                                 | None => Some (line x)
                                 | Some _ => None
                                 end) l).
Proof.
  intros Hx. destruct (body x) as [p|] eqn:Hb.
  - left. exists p. split; [done|]. apply list_elem_of_omap. by exists x.
  - right. split; [done|]. apply list_elem_of_omap. exists x.
    split; [done|]. by rewrite Hb.
Qed.

Lemma omap_partition_length {A B C} (f : A -> option B) (h : A -> C) (l : list A) :
  length (omap f l)
  + length (omap (fun x => match f x with
                           | None => Some (h x)
                           | Some _ => None
                           end) l)
  = length l.
Proof.
  induction l as [|x l IH]; [done|]. cbn [omap list_omap length].
  destruct (f x); cbn [length]; lia.
Qed.

Lemma enumerate_partition_length {A B} (body : nat -> A -> option B)
    (l : list A) :
  forall start,
  length (omap (fun '(i, r) => body i r) (enumerate start l))
  + length (omap (fun '(i, r) => match body i r with
                                 | None => Some (skipping i)
                                 | Some _ => None
                                 end) (enumerate start l))
  = length l.
Proof.
  induction l as [|x l IH]; intros start; [done|].
  cbn [enumerate omap list_omap length]. specialize (IH (S start)).
  destruct (body start x); cbn [length]; lia.
Qed.

Lemma enumerate_row_accounted {A} (body : nat -> A -> option placemark)
    (l : list A) (k : nat) (x : A) :
  l !! k = Some x ->
  (exists p, body (S k) x = Some p
             /\ p ∈ omap (fun '(i, r) => body i r) (enumerate 1 l))
  \/ (body (S k) x = None
      /\ skipping (S k)
         ∈ omap (fun '(i, r) => match body i r with
                                | None => Some (skipping i)
                                | Some _ => None
                                end) (enumerate 1 l)).
Proof.
  intros Hk. assert ((S k, x) ∈ enumerate 1 l) as Hin.
  { apply elem_of_enumerate. by exists k. }
  destruct (body (S k) x) as [p|] eqn:Hb.
  - left. exists p. split; [done|]. apply list_elem_of_omap. by exists (S k, x).
  - right. split; [done|]. apply list_elem_of_omap. exists (S k, x).
    split; [done|]. by rewrite Hb.
Qed.

(** X8.  No row is dropped silently.  In a run that ends, the markers
    are, in the order of the rows, what the loop body yields, and the
    console has, in the same order, one line for each row that yields
    none: on the coordinate path the line
    [Skipping row i: Invalid coordinates] with the index of that row, on
    the address path the warning with the address of that row.  So each
    row gives either one of the markers or its own line, the numbers of
    markers and of lines add up to the number of rows, and on the address
    path the summary line reports the number of markers out of the number
    of rows. *)
Theorem every_row_accounted_for
    (available : bool) (g : geocoder) (o : set_order)
    (data : list csv_row) (headers : list string) (document_name : string)
    (address_column : string) (name_column : cell)
    (skip_geocoding : bool) (lat_column lon_column : cell) (c : conversion) :
  convert_csv_to_kml available g o data headers document_name
    address_column name_column skip_geocoding lat_column lon_column = Ok c ->
  exists before lines after,
    console c = before ++ lines ++ after
    /\ length (markers c) + length lines = length data
    /\ if skip_geocoding && truthy lat_column && truthy lon_column
       then
         let body := coordinate_row headers address_column name_column
                       (str lat_column) (str lon_column) in
         markers c = omap (fun '(i, r) => body i (fields r)) (enumerate 1 data)
         /\ lines = omap (fun '(i, r) =>
                            match body i (fields r) with
                            | None => Some (skipping i)
                            | Some _ => None
                            end) (enumerate 1 data)
         /\ (forall k (r : csv_row), data !! k = Some r ->
               (exists p, body (S k) r = Some p /\ p ∈ markers c)
               \/ (body (S k) r = None /\ skipping (S k) ∈ lines))
         /\ after = [Print ("Generating KML with "
                            +:+ str_of_nat (length (markers c))
                            +:+ " placemarks...")]
       else
         exists address_col results,
           let body := geocoded_row headers address_col name_column results in
           find_address_column headers address_column = Ok address_col
           /\ markers c = omap (fun r : csv_row => body r) data
           /\ lines = omap (fun r : csv_row =>
                              match body r with
                              | None => Some (could_not_geocode
                                                (get r address_col (Some "")))
                              | Some _ => None
                              end) data
           /\ (forall r : csv_row, r ∈ data ->
                 (exists p, body r = Some p /\ p ∈ markers c)
                 \/ (body r = None
                     /\ could_not_geocode (get r address_col (Some "")) ∈ lines))
           /\ after = [Print ("Successfully geocoded "
                              +:+ str_of_nat (length (markers c)) +:+ "/"
                              +:+ str_of_nat (length data) +:+ " addresses");
                       Print ("Generating KML with "
                              +:+ str_of_nat (length (markers c))
                              +:+ " placemarks...")].
Proof.
  unfold convert_csv_to_kml.
  destruct (Nat.eqb (length data) 0); [done|].
  destruct (skip_geocoding && truthy lat_column && truthy lon_column).
  - destruct (negb (in_list (str lat_column) headers)); [done|].
    destruct (negb (in_list (str lon_column) headers)); [done|].
    rewrite coordinate_rows_enumerate.
    destruct (generate_kml _ _) as [kml|]; [|done].
    intros [= <-]. cbn [markers console app].
    set (body := coordinate_row headers address_column name_column
                   (str lat_column) (str lon_column)).
    rewrite (coordinate_entries_placemarks body).
    assert (length (omap (fun '(i, r) => entry_of r <$> body i (fields r))
                      (enumerate 1 data))
            = length (omap (fun '(i, r) => body i (fields r)) (enumerate 1 data)))
      as ->.
    { by rewrite <- (coordinate_entries_placemarks body), length_map. }
    eexists [_; _], _, [_]. split; [reflexivity|].
    split; [|split; [done|]; split; [done|]; split; [|done]].
    + apply (enumerate_partition_length
               (fun i (r : csv_row) => body i (fields r)) data 1).
    + intros k r Hk.
      apply (enumerate_row_accounted
               (fun i (r : csv_row) => body i (fields r)) data k r Hk).
  - destruct (find_address_column headers address_column) as [col|]; [|done].
    unfold batch_geocode. destruct available; [|done]. cbn [negb].
    destruct (batch_geocode_loop _ _ _ _ _ _ _) as [[results cache] out1].
    rewrite geocoded_rows_omap.
    destruct (generate_kml _ _) as [kml|]; [|done].
    intros [= <-]. cbn [markers console app Nat.add].
    set (body := geocoded_row headers col name_column results).
    rewrite (geocoded_entries_placemarks body).
    rewrite (entries_length (fun r : csv_row => body r) surplus).
    rewrite <- !(assoc_L (++)).
    eexists out1, _, [_; _]. split; [reflexivity|].
    split; [|exists col, results; split; [done|]; split; [done|]; split; [done|];
             split; [|done]].
    + apply (omap_partition_length
               (fun r : csv_row => body r)
               (fun r : csv_row => could_not_geocode (get r col (Some ""))) data).
    + intros r Hr.
      apply (row_accounted (fun r : csv_row => body r)
               (fun r : csv_row => could_not_geocode (get r col (Some "")))
               data r Hr).
Qed.

(** X9.  Where the name of a marker comes from.  The name is the cell
    of the name column when one is configured and in the header, else
    the cell of the address column, as it is: an empty or missing cell
    is not replaced.  On the coordinate path the name [Point i] with the
    index of the row is used exactly when that column is no header, and
    the description is the cell of the address column, or empty without
    such a column; on the address path the name is the address when no
    name column is configured or the configured one is no header. *)
Theorem marker_names (headers : list string) (name_column : cell) (r : row)
    (p : placemark) :
  (forall k, is_Some (dict_lookup k r) <-> k ∈ headers) ->
  (forall address_column lat_column lon_column idx,
      coordinate_row headers address_column name_column lat_column lon_column
        idx r = Some p ->
      let source := name_source headers address_column name_column in
      (source ∈ headers -> dict_lookup source r = Some (name p))
      /\ (source ∉ headers -> name p = Some ("Point " +:+ str_of_nat idx))
      /\ (address_column ∈ headers ->
          dict_lookup address_column r = Some (description p))
      /\ (address_column ∉ headers -> description p = Some ""))
  /\ (forall address_col results,
         geocoded_row headers address_col name_column results r = Some p ->
         let source := name_source headers address_col name_column in
         (source ∈ headers -> source <> address_col ->
          dict_lookup source r = Some (name p))
         /\ (source = address_col -> name p = description p)).
Proof.
  intros Hkeys.
  assert (forall k (d : cell), k ∈ headers ->
            dict_lookup k r = Some (get r k d)) as Hin.
  { intros k d Hk. apply Hkeys in Hk as [v Hv]. unfold get. by rewrite Hv. }
  assert (forall k (d : cell), k ∉ headers -> get r k d = d) as Hout.
  { intros k d Hk. unfold get. destruct (dict_lookup k r) as [v|] eqn:Hv; [|done].
    destruct Hk. apply Hkeys. by eexists. }
  split.
  - intros address_column lat_column lon_column idx. unfold coordinate_row.
    destruct (float_of_column r lat_column) as [lat|]; [|done].
    destruct (float_of_column r lon_column) as [lon|]; [|done].
    intros [= <-]. cbn [name description]. unfold name_source.
    destruct (truthy name_column && in_list (str name_column) headers);
      repeat split; intros; by (apply Hin || apply Hout).
  - intros address_col results. unfold geocoded_row.
    destruct (geocoded_get results _) as [c|]; [|done].
    intros [= <-]. cbn [name description]. unfold name_source.
    destruct (truthy name_column && in_list (str name_column) headers);
      (split; [intros; by apply Hin|]); [|done].
    intros ->. unfold get. by destruct (dict_lookup _ r).
Qed.

(** X10.  The attributes of a marker with a description are mirrored.
    The element of such a marker has one description child.  Each
    attribute of the marker has its row in the table of the text of that
    child and its entry in the [ExtendedData] block; for a marker without
    attributes the text is the bare description and there is no block. *)
Theorem attributes_mirrored (p : placemark) :
  truthy (description p) = true ->
  exists text,
    ET.findall "description" (placemark_element p)
    = [ET.Element "description" [] (Some text) []]
    /\ (extended_data p = [] ->
        text = str (description p)
        /\ ET.findall "ExtendedData" (placemark_element p) = [])
    /\ (forall k v, (k, v) ∈ extended_data p ->
        contains ("<tr><td><b>" +:+ k +:+ "</b></td><td>" +:+ str v
                  +:+ "</td></tr>") text = true
        /\ (k, str v) ∈ serialized_attributes (placemark_element p)).
Proof.
  intros Hdesc. exists (description_text p). split; [|split].
  - unfold ET.findall, placemark_element. cbn [ET.children]. rewrite Hdesc.
    by destruct (extended_data p).
  - intros Hd. unfold description_text, ET.findall, placemark_element.
    rewrite Hd, Hdesc. cbn [ET.children length Nat.eqb negb]. done.
  - intros k v Hin. split.
    + unfold description_text.
      destruct (extended_data p) as [|kv d] eqn:Hd; [by apply elem_of_nil in Hin|].
      cbn [length Nat.eqb negb]. apply join_contains.
      apply elem_of_app. right. apply elem_of_app. left.
      apply list_elem_of_fmap. by exists (k, v).
    + rewrite serialized_attributes_placemark.
      apply list_elem_of_fmap. by exists (k, v).
Qed.

End RunsMore.

(** ** [main] *)

Section MainProperties.
Context `{F : Float} `{X : Expat}.

Lemma generate_kml_no_import_error (placemarks : list entry)
    (document_name msg : string) :
  generate_kml placemarks document_name <> Raise (ImportError msg).
Proof.
  unfold generate_kml. destruct (existsb _ _); [done|].
  by destruct (ET.parses _).
Qed.

Lemma finish_no_import_error (placemarks : list entry)
    (document_name msg : string) (out : list event) :
  match generate_kml placemarks document_name with
  | Raise e => Raise e
  | Ok kml => Ok (Conversion (map fst placemarks) kml out)
  end <> Raise (ImportError msg).
Proof.
  pose proof (generate_kml_no_import_error placemarks document_name msg) as H.
  destruct (generate_kml placemarks document_name) as [kml|e]; [done|].
  intros [= ->]. done.
Qed.

(** X11.  How the program ends.  When [--skip-geocoding] is given
    without both coordinate columns, or geocoding is asked for and geopy
    is missing, the program stops with status 2 before it reads the file
    or prints anything.  Otherwise it ends with status 0 after writing
    the document, to the given output file or else to the stem of the
    input with [.kml], or with status 1 and one line [Error: ...] when
    the conversion raises: a missing input file gives
    [CSV file not found], a file without rows [No data found in CSV
    file].  A conversion started by [main] never raises [ImportError]. *)
Theorem main_exit_status (available : bool) (g : geocoder) (o : set_order)
    (source : csv_source) (stem : string) (args : Cli.arguments) :
  let e := Cli.main available g o source stem args in
  let usage :=
    Cli.skip_geocoding args
    && (negb (truthy (Cli.lat_column args))
        || negb (truthy (Cli.lon_column args)))
    || negb (Cli.skip_geocoding args) && negb available in
  let run :=
    convert_csv_to_kml_file available g o source stem
      (Cli.csv_file args) (Cli.output args) (Cli.address_column args)
      (Cli.name_column args) (Cli.skip_geocoding args)
      (Cli.lat_column args) (Cli.lon_column args) in
  (usage = true ->
   Cli.status e = 2 /\ is_Some (Cli.stderr e)
   /\ Cli.stdout e = [] /\ Cli.written e = None)
  /\ (usage = false ->
      (exists c out,
          run = Completed (default (stem +:+ ".kml") (Cli.output args)) c out
          /\ e = Cli.Exit 0 None out
                   (Some (default (stem +:+ ".kml") (Cli.output args),
                          document c)))
      \/ (exists msg,
             run = Aborted msg
             /\ e = Cli.Exit 1 (Some ("Error: " +:+ msg)) [] None))
  /\ (usage = false -> source = NoSuchFile ->
      e = Cli.Exit 1 (Some ("Error: CSV file not found: " +:+ Cli.csv_file args))
            [] None)
  /\ (usage = false -> forall headers, source = Parsed [] headers ->
      e = Cli.Exit 1 (Some "Error: No data found in CSV file") [] None)
  /\ (usage = false -> forall data headers msg,
      convert_csv_to_kml available g o data headers stem
        (Cli.address_column args) (Cli.name_column args)
        (Cli.skip_geocoding args) (Cli.lat_column args) (Cli.lon_column args)
      <> Raise (ImportError msg)).
Proof.
  intros e usage run. subst e run. unfold Cli.main. fold usage.
  split; [|split; [|split; [|split]]].
  - intros Hu. unfold usage in Hu.
    destruct (Cli.skip_geocoding args
              && (negb (truthy (Cli.lat_column args))
                  || negb (truthy (Cli.lon_column args)))) eqn:H1.
    + cbn. split; [done|]. split; [by eexists | done].
    + cbn [orb] in Hu. rewrite Hu. cbn. split; [done|]. split; [by eexists | done].
  - intros Hu. unfold usage in Hu. apply orb_false_iff in Hu as [-> ->].
    unfold convert_csv_to_kml_file.
    destruct source as [|msg|data headers].
    + right. by eexists.
    + right. by eexists.
    + destruct (convert_csv_to_kml _ _ _ _ _ _ _ _ _ _ _) as [c|err].
      * left. eexists _, _. split; [|done]. by destruct (Cli.output args).
      * right. by eexists.
  - intros Hu ->. unfold usage in Hu. by apply orb_false_iff in Hu as [-> ->].
  - intros Hu headers ->. unfold usage in Hu.
    by apply orb_false_iff in Hu as [-> ->].
  - intros Hu data headers msg. unfold usage in Hu.
    apply orb_false_iff in Hu as [H1 H2].
    unfold convert_csv_to_kml.
    destruct (Nat.eqb (length data) 0); [done|].
    destruct (Cli.skip_geocoding args) eqn:Hs.
    + cbn [andb] in H1. apply orb_false_iff in H1 as [Hlat Hlon].
      apply negb_false_iff in Hlat, Hlon. rewrite Hlat, Hlon. cbn [andb].
      destruct (negb (in_list _ headers)); [done|].
      destruct (negb (in_list _ headers)); [done|].
      rewrite coordinate_rows_enumerate. apply finish_no_import_error.
    + cbn [andb negb] in H2 |- *. apply negb_false_iff in H2 as ->.
      unfold find_address_column.
      destruct (in_list (Cli.address_column args) headers).
      * unfold batch_geocode. cbn [negb].
        destruct (batch_geocode_loop _ _ _ _ _ _ _) as [[results cache] out1].
        rewrite geocoded_rows_omap. apply finish_no_import_error.
      * destruct (List.filter _ headers) as [|first rest]; [done|].
        unfold batch_geocode. cbn [negb].
        destruct (batch_geocode_loop _ _ _ _ _ _ _) as [[results cache] out1].
        rewrite geocoded_rows_omap. apply finish_no_import_error.
Qed.

(** X12.  With [--skip-geocoding] the program works offline.  Whatever
    the file holds, the outcome is the same with or without geopy, for
    every provider and every order of sets, and everything on the
    console was printed: the program has neither slept nor called the
    provider. *)
Theorem main_skip_geocoding_offline
    (available available' : bool) (g g' : geocoder) (o o' : set_order)
    (source : csv_source) (stem : string) (args : Cli.arguments) :
  Cli.skip_geocoding args = true ->
  Cli.main available g o source stem args
  = Cli.main available' g' o' source stem args
  /\ Forall is_print (Cli.stdout (Cli.main available g o source stem args)).
Proof.
  intros Hs. unfold Cli.main. rewrite Hs. cbn [andb negb orb].
  destruct (negb (truthy (Cli.lat_column args))
            || negb (truthy (Cli.lon_column args))) eqn:Hcols.
  { split; [done | constructor]. }
  apply orb_false_iff in Hcols as [Hlat Hlon].
  apply negb_false_iff in Hlat, Hlon.
  unfold convert_csv_to_kml_file. destruct source as [|msg|data headers];
    [split; [done | constructor].. |].
  unfold convert_csv_to_kml. rewrite Hlat, Hlon. cbn [andb].
  split; [done|].
  destruct (Nat.eqb (length data) 0); [constructor|].
  destruct (negb (in_list _ headers)); [constructor|].
  destruct (negb (in_list _ headers)); [constructor|].
  rewrite coordinate_rows_enumerate.
  destruct (generate_kml _ _) as [kml|]; [|constructor].
  cbn [Cli.stdout console app].
  apply Forall_cons_2; [apply print_is_print|].
  do 2 (apply Forall_cons_2; [apply print_is_print|]).
  apply Forall_app_2; [|repeat (apply Forall_cons_2; [apply print_is_print|]);
                        constructor].
  apply Forall_app_2;
    [apply (skipping_prints
              (fun i (r : csv_row) =>
                 coordinate_row headers (Cli.address_column args)
                   (Cli.name_column args) (str (Cli.lat_column args))
                   (str (Cli.lon_column args)) i r))|].
  apply Forall_cons_2; [apply print_is_print | constructor].
Qed.

End MainProperties.

(** ** The document *)

Section Document.
Context `{F : Float} `{X : Expat}.

Lemma findall_placemarks (t : string) (placemarks : list placemark) :
  List.filter (fun c => String.eqb (ET.tag c) t) (map placemark_element placemarks)
  = if String.eqb "Placemark" t then map placemark_element placemarks else [].
Proof.
  induction placemarks as [|p l IH]; [by destruct (String.eqb _ _)|].
  cbn [map List.filter]. rewrite IH.
  change (ET.tag (placemark_element p)) with "Placemark".
  by destruct (String.eqb "Placemark" t).
Qed.

(** X13.  The shape of the document.  For every list of markers, the
    empty one included, the tree is a [kml] element with one [Document]
    that holds the document name, exactly one [Style], whose id is
    [defaultStyle], and one [Placemark] per marker, in the order of the
    list.  Every [Placemark] has one name, one [Point] and one
    [styleUrl], which refers to the id of that style. *)
Theorem kml_document_structure (placemarks : list placemark)
    (document_name : string) :
  exists body style,
    generate_kml_tree placemarks document_name
    = ET.Element "kml" [("xmlns", "http://www.opengis.net/kml/2.2")] None [body]
    /\ ET.tag body = "Document"
    /\ map ET.text (ET.findall "name" body) = [Some document_name]
    /\ ET.findall "Style" body = [style]
    /\ get (ET.attrib style) "id" "" = "defaultStyle"
    /\ ET.findall "Placemark" body = map placemark_element placemarks
    /\ forall pm, pm ∈ ET.findall "Placemark" body ->
       map ET.text (ET.findall "styleUrl" pm)
       = [Some ("#" +:+ get (ET.attrib style) "id" "")]
       /\ length (ET.findall "name" pm) = 1
       /\ length (ET.findall "Point" pm) = 1.
Proof.
  unfold generate_kml_tree. eexists _, _. split; [reflexivity|].
  unfold ET.findall. cbn [ET.children ET.tag].
  rewrite !List.filter_app, !findall_placemarks. cbn.
  repeat (split; [reflexivity|]).
  intros pm Hpm. apply list_elem_of_fmap in Hpm as (p & -> & _).
  unfold placemark_element. cbn [ET.children].
  rewrite !List.filter_app.
  destruct (truthy (description p));
    destruct (negb (Nat.eqb (length (extended_data p)) 0)); by cbn.
Qed.

End Document.

(** * The further properties on the sample data *)

Lemma find_address_column_in_headers_witness :
  "Street ADDRESS" ∈ ["Name"; "Street ADDRESS"]
  /\ ("Street ADDRESS" = "Address" \/ names_address "Street ADDRESS")
  /\ find_address_column ["Name"; "Street ADDRESS"] "Street ADDRESS"
     = Ok "Street ADDRESS".
Proof.
  apply (proj1 (find_address_column_in_headers ["Name"; "Street ADDRESS"]
                  "Address")).
  reflexivity.
Defined.

Lemma batch_geocode_results_witness :
  exists results new,
    @batch_geocode Sample.whole_numbers true Sample.provider
      ["Nowhere"; "   "; "Nowhere"] [] = Ok (results, [] ++ new)
    /\ results !! "   " = Some None
    /\ lookups_of "Nowhere" new = 1.
Proof.
  destruct (proj2 (@batch_geocode_results Sample.whole_numbers true
                     Sample.provider ["Nowhere"; "   "; "Nowhere"] []) eq_refl)
    as (results & new & Hrun & _ & Hblank & _ & Hone & _).
  exists results, new. split; [exact Hrun|]. split.
  - apply Hblank; [apply list_elem_of_further, list_elem_of_here | reflexivity].
  - apply Hone; [apply list_elem_of_here | exact nowhere_not_blank].
Defined.

Lemma main_street_not_blank : strip "1 Main St, City" <> "".
Proof. vm_compute. discriminate. Qed.

Lemma each_address_looked_up_once_witness :
  exists c,
    Sample.address_run = Ok c
    /\ lookups_of "1 Main St, City" (console c) = 1
    /\ lookups_of "   " (console c) = 0.
Proof.
  destruct sample_address_run_ends as [c Hrun].
  pose proof (@each_address_looked_up_once Sample.whole_numbers Sample.expat
                Sample.provider listed Sample.address_rows
                ["Address"; "Name"; "Phone"] "data"
                "Address" (Some "Name") false None None "Address" c
                eq_refl eq_refl Hrun) as Hcount.
  exists c. split; [exact Hrun|]. split.
  - apply (Hcount "1 Main St, City"). split; [|exact main_street_not_blank].
    eexists. split; [apply list_elem_of_here | reflexivity].
  - apply (Hcount "   "). right. reflexivity.
Defined.

Lemma address_markers_carry_provider_coordinates_witness :
  exists c,
    Sample.address_run = Ok c
    /\ forall p, p ∈ markers c ->
       exists a history loc,
         description p = Some a /\ strip a <> ""
         /\ call_in (console c) history a
         /\ Sample.provider history a = Found loc
         /\ coordinates p = (longitude loc, latitude loc).
Proof.
  destruct sample_address_run_ends as [c Hrun].
  pose proof (@address_markers_carry_provider_coordinates Sample.whole_numbers
                Sample.expat Sample.provider listed Sample.address_rows
                ["Address"; "Name"; "Phone"] "data"
                "Address" (Some "Name") false None None "Address" c
                eq_refl eq_refl Hrun) as Hmarkers.
  exists c. split; [exact Hrun|]. intros p Hp.
  destruct (Hmarkers p Hp)
    as (r & a & history & loc & _ & _ & Hs & Hd & _ & Hcall & Hfound & Hxy & _).
  by exists a, history, loc.
Defined.

Lemma coordinate_path_never_geocodes_witness :
  Sample.coordinate_run
  = @convert_csv_to_kml Sample.whole_numbers Sample.expat true
      (fun _ _ => NotFound)
      backwards Sample.coordinate_rows_data ["Lat"; "Lon"; "Name"; "Note"]
      "data" "Address" (Some "Name") true (Some "Lat") (Some "Lon").
Proof.
  apply (@coordinate_path_never_geocodes Sample.whole_numbers Sample.expat);
    reflexivity.
Defined.


(** Each row of the address sample has its marker or its warning. *)
Lemma every_row_accounted_for_witness :
  exists c before lines after,
    Sample.address_run = Ok c
    /\ console c = before ++ lines ++ after
    /\ length (markers c) + length lines = 5
    /\ forall r : csv_row, r ∈ Sample.address_rows ->
         (exists p, p ∈ markers c /\ description p = get r "Address" (Some ""))
         \/ could_not_geocode (get r "Address" (Some "")) ∈ lines.
Proof.
  destruct sample_address_run_ends as [c Hrun].
  destruct (@every_row_accounted_for Sample.whole_numbers Sample.expat
              true Sample.provider listed Sample.address_rows
              ["Address"; "Name"; "Phone"] "data"
              "Address" (Some "Name") false None None c Hrun)
    as (before & lines & after & Hconsole & Hlen & Hrows).
  exists c, before, lines, after. repeat (split; [done|]).
  cbn [andb] in Hrows.
  destruct Hrows as (col & results & Hfind & Hmarkers & Hlines & Heach & _).
  injection Hfind as <-.
  intros r Hr. destruct (Heach r Hr) as [(p & Hbody & Hp) | [_ Hline]].
  - left. exists p. split; [exact Hp|].
    by apply geocoded_row_description in Hbody as [Hdesc _].
  - right. exact Hline.
Defined.

Lemma attributes_mirrored_witness :
  exists text,
    ET.findall "description"
      (@placemark_element Sample.whole_numbers Sample.described)
    = [ET.Element "description" [] (Some text) []]
    /\ contains "<tr><td><b>k</b></td><td>v</td></tr>" text = true
    /\ ("k", "v") ∈ serialized_attributes
                      (@placemark_element Sample.whole_numbers Sample.described).
Proof.
  destruct (@attributes_mirrored Sample.whole_numbers Sample.described eq_refl)
    as (text & Helement & _ & Hrows).
  exists text. split; [exact Helement|].
  apply (Hrows "k" (Some "v")). apply list_elem_of_here.
Defined.

Lemma main_exit_status_witness :
  Cli.status
    (@Cli.main Sample.whole_numbers Sample.expat true Sample.provider listed
       NoSuchFile "data"
       (Cli.Arguments "data.csv" None "Address" None true (Some "Lat") None))
  = 2
  /\ @Cli.main Sample.whole_numbers Sample.expat true Sample.provider listed
       NoSuchFile "data"
       (Cli.Arguments "data.csv" None "Address" None false None None)
     = Cli.Exit 1 (Some "Error: CSV file not found: data.csv") [] None.
Proof.
  split.
  - apply (@main_exit_status Sample.whole_numbers Sample.expat). reflexivity.
  - apply (proj1 (proj2 (proj2 (@main_exit_status Sample.whole_numbers
                                  Sample.expat true
                                  Sample.provider listed NoSuchFile "data"
                                  (Cli.Arguments "data.csv" None "Address" None
                                     false None None)))));
      reflexivity.
Defined.

Lemma main_skip_geocoding_offline_witness :
  Forall is_print
    (Cli.stdout
       (@Cli.main Sample.whole_numbers Sample.expat false Sample.provider listed
          (Parsed Sample.coordinate_rows_data ["Lat"; "Lon"; "Name"; "Note"])
          "data"
          (Cli.Arguments "data.csv" None "Address" (Some "Name") true
             (Some "Lat") (Some "Lon")))).
Proof.
  apply (@main_skip_geocoding_offline Sample.whole_numbers Sample.expat
           false false Sample.provider Sample.provider listed listed).
  reflexivity.
Defined.

Lemma marker_names_witness :
  exists p,
    @coordinate_row Sample.whole_numbers ["Lat"; "Lon"] "Address" None
      "Lat" "Lon" 1 [("Lat", Some "10.0"); ("Lon", Some "20.0")] = Some p
    /\ name p = Some "Point 1"
    /\ description p = Some "".
Proof.
  set (hs := ["Lat"; "Lon"]).
  set (r := [("Lat", Some "10.0"); ("Lon", Some "20.0")]).
  destruct (coordinate_row_cases (F := Sample.whole_numbers) hs "Address"
              None "Lat" "Lon" 1 r (Some "10.0") (Some "20.0")
              eq_refl eq_refl) as [_ Hgood].
  destruct (Hgood 10%Z 20%Z) as (p & Hbody & _).
  { exists "10.0". split; reflexivity. }
  { exists "20.0". split; reflexivity. }
  exists p. split; [exact Hbody|].
  assert (forall k, is_Some (dict_lookup k r) <-> k ∈ hs) as Hkeys.
  { intros k. subst r hs. cbn [dict_lookup]. split.
    - destruct (String.eqb_spec k "Lat") as [Hlat|_];
        [intros _; rewrite Hlat; apply list_elem_of_here|].
      destruct (String.eqb_spec k "Lon") as [Hlon|_];
        [intros _; rewrite Hlon; apply list_elem_of_further, list_elem_of_here|].
      by intros [? ?].
    - intros Hk.
      repeat (apply elem_of_cons in Hk as [->|Hk]; [by eexists|]).
      by apply elem_of_nil in Hk. }
  assert ("Address" ∉ hs) as Hno.
  { intros Hin. subst hs.
    repeat (apply elem_of_cons in Hin as [Hin|Hin]; [discriminate|]).
    by apply elem_of_nil in Hin. }
  destruct (proj1 (@marker_names Sample.whole_numbers hs None r p Hkeys)
              "Address" "Lat" "Lon" 1 Hbody) as (_ & Hpoint & _ & Hdesc).
  split; [exact (Hpoint Hno) | exact (Hdesc Hno)].
Defined.
